(** * The sleepy character device (sleepy.c): a shallow embedding

    Every device /dev/sleepyN owns a counter [flag], a mutex and a wait
    queue.  Reading the device ([sleepy_read]) advances the counter and wakes
    the sleepers; writing a 4-byte number of seconds ([sleepy_write]) puts
    the caller to sleep until the counter moves, the time is over or a signal
    is delivered.  The module's init and exit functions build and destroy the
    array of devices.

    The functions of sleepy.c are translated one by one.  What the kernel
    decides (whether a lock attempt is killed, how long a sleep lasts, what
    other threads do meanwhile, whether an allocation succeeds) is an explicit
    argument of the translated function. *)

From Stdlib Require Import ZArith Lia.
From Stdlib.Strings Require Import Byte.
From stdpp Require Import base list gmap.

Local Open Scope Z_scope.

(** ** Machine integers (LP64: [int] has 32 bits, [long] and [ssize_t] 64)

    The module is built by kbuild, whose compiler flags make signed
    arithmetic wrap around, so both signed and unsigned results are reduced
    to the width of their type. *)
Module CInt.

Definition wrap_unsigned (bits x : Z) : Z := x mod 2 ^ bits.

Definition wrap_signed (bits x : Z) : Z :=
  (x + 2 ^ (bits - 1)) mod 2 ^ bits - 2 ^ (bits - 1).

Definition to_int : Z -> Z := wrap_signed 32.
Definition to_uint : Z -> Z := wrap_unsigned 32.
Definition to_long : Z -> Z := wrap_signed 64.
Definition to_ulong : Z -> Z := wrap_unsigned 64.

Definition INT_MIN : Z := - 2 ^ 31.
Definition INT_MAX : Z := 2 ^ 31 - 1.

(** [a * b] on two [int]s. *)
Definition int_mul (a b : Z) : Z := to_int (a * b).

(** [a / b] on signed operands truncates towards zero. *)
Definition c_div (a b : Z) : Z := Z.quot a b.

End CInt.

(** ** Error numbers (linux/errno.h) *)
Module Errno.
Definition EINTR : Z := 4.
Definition ENOMEM : Z := 12.
Definition ENODEV : Z := 19.
Definition EINVAL : Z := 22.
Definition ERESTARTSYS : Z := 512.
Definition MAX_ERRNO : Z := 4095.
End Errno.

Import CInt Errno.

(** ** Events: what a call does to the device and to its caller, in order *)
Inductive event : Type :=
| EvLock                               (* mutex_lock_killable took the mutex *)
| EvUnlock                             (* mutex_unlock *)
| EvFlagRead (v : Z)                   (* dev->flag was read as v *)
| EvFlagWrite (v : Z)                  (* dev->flag was set to v *)
| EvWakeUp                             (* wake_up_interruptible(&dev->wq) *)
| EvCopy (missing : Z)                 (* copy_from_user left `missing` bytes *)
| EvOthers (k : nat)                   (* k reads by other threads completed *)
| EvSleep (timeout : Z) (elapsed : N)  (* schedule_timeout slept `elapsed` *)
| EvBadTimeout (timeout : Z)           (* schedule_timeout refused to sleep *)
| EvInterrupted.                       (* the wait was left for a signal *)

#[global] Instance event_eq_dec : EqDecision event.
Proof. solve_decision. Defined.

Definition is_sleep (e : event) : bool :=
  match e with EvSleep _ _ => true | _ => false end.

Definition is_flag_write (e : event) : bool :=
  match e with EvFlagWrite _ => true | _ => false end.

(** Jiffies spent asleep in a trace. *)
Fixpoint slept (tr : list event) : Z :=
  match tr with
  | [] => 0
  | EvSleep _ e :: tr' => Z.of_N e + slept tr'
  | _ :: tr' => slept tr'
  end.

(** The caller was never put to sleep. *)
Definition no_sleep (tr : list event) : bool :=
  forallb (λ e, negb (is_sleep e)) tr.

(** The call itself never stored into the counter. *)
Definition no_flag_write (tr : list event) : bool :=
  forallb (λ e, negb (is_flag_write e)) tr.

(** The wait was given up for a pending signal. *)
Definition interrupted (tr : list event) : bool :=
  existsb (λ e, bool_decide (e = EvInterrupted)) tr.

(** Reads by other threads seen in a trace. *)
Fixpoint others_seen (tr : list event) : nat :=
  match tr with
  | [] => O
  | EvOthers k :: tr' => (k + others_seen tr')%nat
  | _ :: tr' => others_seen tr'
  end.

(** ** The device *)

(** Modelled from the spec: sleepy.h, which declares [struct sleepy_dev], is
    not among the sources.  The fields are those sleepy.c uses; the spec
    makes the counter an unsigned integer, whose width [flag_bits] is left
    open.  The mutex and the wait queue have no content of their own: taking
    the mutex, waking the queue and sleeping on it show as events; the
    registration of [cdev] is kept with the kernel's resources below. *)
Record sleepy_dev : Type := mk_dev {
  data : option (list byte);   (* unsigned char *data; NULL is None *)
  flag : Z
}.

Definition set_flag (dev : sleepy_dev) (v : Z) : sleepy_dev :=
  {| data := data dev; flag := v |}.

(** What a file operation leaves behind. *)
Record outcome : Type := mk_outcome {
  returned : Z;
  dev_after : sleepy_dev;
  trace : list event
}.

Definition before (evs : list event) (o : outcome) : outcome :=
  {| returned := returned o; dev_after := dev_after o; trace := evs ++ trace o |}.

(** What sleepy.c takes from outside: [HZ] (jiffies per second) from the
    kernel configuration, the width of the counter from the missing header. *)
Class config : Type := mk_config {
  HZ : Z;
  flag_bits : N
}.

Section Sleepy.

Context {cfg : config}.

Definition flag_modulus : Z := 2 ^ Z.of_N flag_bits.

Definition dev_ok (dev : sleepy_dev) : Prop := 0 <= flag dev < flag_modulus.

(** [dev->flag++] *)
Definition flag_incr (dev : sleepy_dev) : sleepy_dev :=
  set_flag dev ((flag dev + 1) mod flag_modulus).

(** ** sleepy_read

    [lock] is what [mutex_lock_killable] returns: 0 once the mutex is
    held, -EINTR when a fatal signal arrived first. *)
Definition sleepy_read (lock : Z) (dev : sleepy_dev) : outcome :=
  let retval := 0 in
  if negb (lock =? 0) then
    {| returned := - EINTR; dev_after := dev; trace := [] |}
  else
    let dev := flag_incr dev in
    {| returned := retval; dev_after := dev;
       trace := [EvLock; EvFlagWrite (flag dev); EvWakeUp; EvUnlock] |}.

(** A sequence of reads of one device, one lock result per call. *)
Fixpoint sleepy_reads (locks : list Z) (dev : sleepy_dev) : sleepy_dev :=
  match locks with
  | [] => dev
  | lock :: locks' => sleepy_reads locks' (dev_after (sleepy_read lock dev))
  end.

(** The calls of a sequence that got the mutex. *)
Definition acquired (locks : list Z) : Z :=
  Z.of_nat (length (filter (λ lock, lock = 0) locks)).

(** [k] reads by other threads that complete while this one is between two
    looks at the counter. *)
Definition others_signal (k : nat) (dev : sleepy_dev) : sleepy_dev :=
  Nat.iter k flag_incr dev.

(** ** What the kernel provides to sleepy_write *)

(** [copy_from_user(dst, buf, n)]: [buf] holds the bytes readable at the
    user address; returns the number of bytes that could not be copied,
    with the bytes that were. *)
Definition copy_from_user (buf : list byte) (n : Z) : Z * list byte :=
  let got := take (Z.to_nat n) buf in
  (n - Z.of_nat (length got), got).

(** The [int] stored in the copied bytes (little endian). *)
Definition int_of_bytes (bs : list byte) : Z :=
  to_int (foldr (λ b acc, Z.of_N (Byte.to_N b) + 256 * acc) 0 bs).

(** The user buffer holds the 4 bytes of the [int] [s]. *)
Definition holds_int (buf : list byte) (s : Z) : Prop :=
  (4 <= length buf)%nat ∧ int_of_bytes (take 4 buf) = s.

(** One turn of the wait loop, as the kernel decides it. *)
Record wakeup : Type := mk_wakeup {
  wk_pending : bool;   (* a signal is pending at prepare_to_wait_event *)
  wk_others : nat;     (* reads completed by others since the last check *)
  wk_elapsed : N       (* jiffies that pass if schedule_timeout sleeps *)
}.

(** The environment of one sleepy_write call. *)
Record write_env : Type := mk_write_env {
  w_lock : Z;               (* result of mutex_lock_killable *)
  w_first : nat;            (* reads by others between unlock and 1st check *)
  w_wakeups : list wakeup
}.

(** The wake-ups described reach a turn of the wait loop at which none of
    the [t] jiffies is left: the wait cannot outlast them. *)
Fixpoint covers (wakeups : list wakeup) (t : Z) : bool :=
  match wakeups with
  | [] => false
  | w :: wakeups' => (t <=? 0) || covers wakeups' (t - Z.of_N (wk_elapsed w))
  end.

(** Wake-ups during which no signal is pending and no other thread reads
    the device. *)
Definition calm (wakeups : list wakeup) : bool :=
  forallb (λ w, negb (wk_pending w) && (wk_others w =? 0)%nat) wakeups.

(** [flag != dev->flag] with [unsigned long flag] the snapshot. *)
Definition condition (observed : Z) (dev : sleepy_dev) : bool :=
  negb (observed =? to_ulong (flag dev)).

(** linux/wait.h:
    [bool __cond = (condition); if (__cond && !__ret) __ret = 1;
     __cond || !__ret;] *)
Definition ___wait_cond_timeout (__cond : bool) (__ret : Z) : bool * Z :=
  let __ret := if __cond && (__ret =? 0) then 1 else __ret in
  (__cond || (__ret =? 0), __ret).

(** [prepare_to_wait_event] in state TASK_INTERRUPTIBLE. *)
Definition prepare_to_wait_event (pending : bool) : Z :=
  if pending then - ERESTARTSYS else 0.

(** kernel/timer.c: a negative timeout is reported and not slept on;
    otherwise the caller sleeps and gets the jiffies that are left,
    [timeout < 0 ? 0 : timeout] of [expire - jiffies]. *)
Definition schedule_timeout (timeout : Z) (elapsed : N) : Z * event :=
  if timeout <? 0 then (0, EvBadTimeout timeout)
  else
    let timeout' := timeout - Z.of_N elapsed in
    ((if timeout' <? 0 then 0 else timeout'), EvSleep timeout elapsed).

(** linux/wait.h, [___wait_event(wq, ___wait_cond_timeout(condition),
    TASK_INTERRUPTIBLE, 0, timeout, __ret = schedule_timeout(__ret))]:
    the [for (;;)] loop, one [wakeup] per turn.  [None]: the caller is
    still asleep when the described wake-ups are used up. *)
Fixpoint ___wait_event (observed : Z) (wakeups : list wakeup) (__ret : Z)
    (dev : sleepy_dev) : option outcome :=
  match wakeups with
  | [] => None
  | w :: wakeups' =>
      let __int := prepare_to_wait_event (wk_pending w) in
      let dev := others_signal (wk_others w) dev in
      let checked := [EvOthers (wk_others w); EvFlagRead (flag dev)] in
      let '(stop, __ret) := ___wait_cond_timeout (condition observed dev) __ret in
      if stop then
        Some {| returned := __ret; dev_after := dev; trace := checked |}
      else if negb (__int =? 0) then
        Some {| returned := __int; dev_after := dev;
                trace := checked ++ [EvInterrupted] |}
      else
        let '(__ret, ev) := schedule_timeout __ret (wk_elapsed w) in
        before (checked ++ [ev]) <$> ___wait_event observed wakeups' __ret dev
  end.

(** linux/wait.h: [long __ret = timeout;
    if (!___wait_cond_timeout(condition))
      __ret = __wait_event_interruptible_timeout(wq, condition, timeout);
    __ret;] *)
Definition wait_event_interruptible_timeout (observed : Z) (first : nat)
    (wakeups : list wakeup) (timeout : Z) (dev : sleepy_dev) : option outcome :=
  let __ret := to_long timeout in
  let dev := others_signal first dev in
  let checked := [EvOthers first; EvFlagRead (flag dev)] in
  let '(stop, __ret') := ___wait_cond_timeout (condition observed dev) __ret in
  if stop then
    Some {| returned := __ret'; dev_after := dev; trace := checked |}
  else
    before checked <$> ___wait_event observed wakeups (to_long timeout) dev.

(** ** sleepy_write *)
Definition sleepy_write (env : write_env) (buf : list byte) (count : Z)
    (dev : sleepy_dev) : option outcome :=
  let retval := 0 in
  if negb (count =? 4) then
    Some {| returned := - EINVAL; dev_after := dev; trace := [] |}
  else
    let '(ret, copied) := copy_from_user buf count in
    let sleep_seconds := int_of_bytes copied in
    if negb (ret =? 0) then
      Some {| returned := - EINVAL; dev_after := dev; trace := [EvCopy ret] |}
    else
      let sleep_jiffies := to_ulong (int_mul sleep_seconds HZ) in
      if negb (w_lock env =? 0) then
        Some {| returned := - EINTR; dev_after := dev; trace := [EvCopy ret] |}
      else
        let flag' := to_ulong (flag dev) in
        let locked := [EvCopy ret; EvLock; EvFlagRead (flag dev); EvUnlock] in
        match wait_event_interruptible_timeout flag' (w_first env)
                (w_wakeups env) sleep_jiffies dev with
        | None => None
        | Some o =>
            let retval := returned o in
            let retval := if negb (retval =? 0) then c_div retval HZ else retval in
            Some {| returned := retval; dev_after := dev_after o;
                    trace := locked ++ trace o |}
        end.

(** The end of [sleepy_write] when the 4 bytes are in and the mutex was
    taken: the result of the wait is divided, the events put in order. *)
Definition finish (dev : sleepy_dev) (o : outcome) : outcome :=
  {| returned := if negb (returned o =? 0) then c_div (returned o) HZ
                 else returned o;
     dev_after := dev_after o;
     trace := [EvCopy 0; EvLock; EvFlagRead (flag dev); EvUnlock] ++ trace o |}.

(** [sleepy_release] and [sleepy_llseek] do nothing and return 0. *)
Definition sleepy_release (dev : sleepy_dev) : outcome :=
  {| returned := 0; dev_after := dev; trace := [] |}.

Definition sleepy_llseek (off whence : Z) (dev : sleepy_dev) : outcome :=
  {| returned := 0; dev_after := dev; trace := [] |}.

End Sleepy.

(** ** The module: globals, kernel resources, open files *)

(** A C pointer as the module uses it: NULL, an error code in pointer
    clothes, a live object, or the address of an object already freed. *)
Inductive pointer (A : Type) : Type :=
| NULL
| ERR_PTR (e : Z)
| Valid (a : A)
| Freed.
Arguments NULL {A}.
Arguments ERR_PTR {A} e.
Arguments Valid {A} a.
Arguments Freed {A}.

Definition is_null {A} (p : pointer A) : bool :=
  match p with NULL => true | _ => false end.

(** linux/err.h: the top MAX_ERRNO addresses are error codes. *)
Definition IS_ERR {A} (p : pointer A) : bool :=
  match p with
  | ERR_PTR e => (- MAX_ERRNO <=? e) && (e <? 0)
  | _ => false
  end.

Definition PTR_ERR {A} (p : pointer A) : Z :=
  match p with ERR_PTR e => e | _ => 0 end.

Record inode : Type := mk_inode {
  i_major : Z;            (* imajor(inode), unsigned *)
  i_minor : Z;            (* iminor(inode), unsigned *)
  i_cdev : option nat     (* the device whose cdev the inode is bound to *)
}.

Record file : Type := mk_file {
  private_data : option nat   (* &sleepy_devices[n], or NULL *)
}.

(** The module's globals, with the kernel resources it holds and the list of
    the devices handed to [sleepy_destroy_device] so far. *)
Record module_state : Type := mk_state {
  sleepy_ndevices : Z;
  sleepy_major : Z;
  sleepy_devices : pointer (list sleepy_dev);
  sleepy_class : pointer unit;
  chrdev_region : bool;     (* the range of minors is registered *)
  class_live : bool;        (* the device class exists *)
  array_live : bool;        (* the kzalloc'ed array is allocated *)
  cdevs : gset nat;         (* minors whose cdev is added *)
  nodes : gset nat;         (* minors whose device node exists *)
  destroyed : list nat
}.

(** A module that has just been loaded. *)
Definition fresh (ndevices : Z) : module_state :=
  {| sleepy_ndevices := ndevices; sleepy_major := 0;
     sleepy_devices := NULL; sleepy_class := NULL;
     chrdev_region := false; class_live := false; array_live := false;
     cdevs := ∅; nodes := ∅; destroyed := [] |}.

(** The module holds nothing of the kernel's. *)
Definition released (st : module_state) : Prop :=
  chrdev_region st = false ∧ class_live st = false ∧ array_live st = false
  ∧ cdevs st = ∅ ∧ nodes st = ∅.

(** What the kernel answers during [sleepy_init_module]. *)
Record init_env : Type := mk_init_env {
  alloc_chrdev_region : Z * Z;          (* return value, major number *)
  class_create : pointer unit;
  kzalloc : bool;                       (* false: NULL *)
  cdev_add : nat -> Z;
  device_create : nat -> pointer unit
}.

Definition sleepy_open (st : module_state) (ino : inode) (filp : file)
    : Z * file :=
  let mj := i_major ino in
  let mn := i_minor ino in
  if negb (mj =? sleepy_major st) || (mn <? 0)
     || (to_uint (sleepy_ndevices st) <=? mn) then
    (- ENODEV, filp)
  else
    let dev := Z.to_nat mn in
    let filp := {| private_data := Some dev |} in
    if negb (bool_decide (i_cdev ino = Some dev)) then (- ENODEV, filp)
    else (0, filp).

(** A file operation reaches its device through [filp->private_data]; the
    result is written back into the array.  [None] when the pointer does
    not lead to a device of the array, or the caller is still asleep. *)
Definition through (filp : file) (devs : list sleepy_dev)
    (fop : sleepy_dev -> option outcome) : option (outcome * list sleepy_dev) :=
  match private_data filp with
  | None => None
  | Some n =>
      match devs !! n with
      | None => None
      | Some dev =>
          match fop dev with
          | None => None
          | Some o => Some (o, <[n := dev_after o]> devs)
          end
      end
  end.

(** [read(2)] and [write(2)] on an open file of the module. *)
Definition vfs_read {cfg : config} (lock : Z) (filp : file)
    (devs : list sleepy_dev) : option (outcome * list sleepy_dev) :=
  through filp devs (λ dev, Some (sleepy_read lock dev)).

Definition vfs_write {cfg : config} (env : write_env)
    (buf : list byte) (count : Z) (filp : file) (devs : list sleepy_dev)
    : option (outcome * list sleepy_dev) :=
  through filp devs (sleepy_write env buf count).

(** ** Building and destroying the devices *)

Definition set_device (minor : nat) (dev : sleepy_dev) (st : module_state)
    : module_state :=
  {| sleepy_ndevices := sleepy_ndevices st; sleepy_major := sleepy_major st;
     sleepy_devices :=
       match sleepy_devices st with
       | Valid devs => Valid (<[minor := dev]> devs)
       | p => p
       end;
     sleepy_class := sleepy_class st;
     chrdev_region := chrdev_region st; class_live := class_live st;
     array_live := array_live st;
     cdevs := cdevs st; nodes := nodes st; destroyed := destroyed st |}.

Definition set_cdevs (s : gset nat) (st : module_state) : module_state :=
  {| sleepy_ndevices := sleepy_ndevices st; sleepy_major := sleepy_major st;
     sleepy_devices := sleepy_devices st; sleepy_class := sleepy_class st;
     chrdev_region := chrdev_region st; class_live := class_live st;
     array_live := array_live st;
     cdevs := s; nodes := nodes st; destroyed := destroyed st |}.

Definition set_nodes (s : gset nat) (st : module_state) : module_state :=
  {| sleepy_ndevices := sleepy_ndevices st; sleepy_major := sleepy_major st;
     sleepy_devices := sleepy_devices st; sleepy_class := sleepy_class st;
     chrdev_region := chrdev_region st; class_live := class_live st;
     array_live := array_live st;
     cdevs := cdevs st; nodes := s; destroyed := destroyed st |}.

Definition sleepy_construct_device (env : init_env) (minor : nat)
    (st : module_state) : Z * module_state :=
  (* dev->data = NULL; mutex_init; init_waitqueue_head; dev->flag = 0 *)
  let st := set_device minor {| data := None; flag := 0 |} st in
  let err := cdev_add env minor in
  if negb (err =? 0) then (err, st)
  else
    let st := set_cdevs ({[minor]} ∪ cdevs st) st in
    let device := device_create env minor in
    if IS_ERR device then
      let err := PTR_ERR device in
      (* cdev_del(&dev->cdev) *)
      (err, set_cdevs (cdevs st ∖ {[minor]}) st)
    else
      (0, set_nodes ({[minor]} ∪ nodes st) st).

(** The value [sleepy_construct_device] returns for a minor number. *)
Definition construct_error (env : init_env) (minor : nat) : Z :=
  if negb (cdev_add env minor =? 0) then cdev_add env minor
  else if IS_ERR (device_create env minor)
       then PTR_ERR (device_create env minor)
       else 0.

(** [device_destroy(class, MKDEV(sleepy_major, minor))], [cdev_del];
    [kfree(dev->data)] frees nothing, as [data] is never allocated. *)
Definition sleepy_destroy_device (minor : nat) (st : module_state)
    : module_state :=
  {| sleepy_ndevices := sleepy_ndevices st; sleepy_major := sleepy_major st;
     sleepy_devices := sleepy_devices st; sleepy_class := sleepy_class st;
     chrdev_region := chrdev_region st; class_live := class_live st;
     array_live := array_live st;
     cdevs := cdevs st ∖ {[minor]}; nodes := nodes st ∖ {[minor]};
     destroyed := destroyed st ++ [minor] |}.

(** [for (i = 0; i < devices_to_destroy; ++i) sleepy_destroy_device(...)] *)
Definition destroy_devices (devices_to_destroy : Z) (st : module_state)
    : module_state :=
  foldl (λ st i, sleepy_destroy_device i st) st
        (seq 0 (Z.to_nat devices_to_destroy)).

Definition sleepy_cleanup_module (devices_to_destroy : Z)
    (st : module_state) : module_state :=
  (* Get rid of character devices (if any exist) *)
  let st :=
    if negb (is_null (sleepy_devices st)) then
      let st := destroy_devices devices_to_destroy st in
      (* kfree(sleepy_devices); the global keeps the stale address *)
      {| sleepy_ndevices := sleepy_ndevices st; sleepy_major := sleepy_major st;
         sleepy_devices := Freed; sleepy_class := sleepy_class st;
         chrdev_region := chrdev_region st; class_live := class_live st;
         array_live := false;
         cdevs := cdevs st; nodes := nodes st; destroyed := destroyed st |}
    else st in
  let st :=
    if negb (is_null (sleepy_class st)) then
      (* class_destroy ignores an error pointer *)
      {| sleepy_ndevices := sleepy_ndevices st; sleepy_major := sleepy_major st;
         sleepy_devices := sleepy_devices st;
         sleepy_class := if IS_ERR (sleepy_class st) then sleepy_class st else Freed;
         chrdev_region := chrdev_region st;
         class_live := if IS_ERR (sleepy_class st) then class_live st else false;
         array_live := array_live st;
         cdevs := cdevs st; nodes := nodes st; destroyed := destroyed st |}
    else st in
  (* unregister_chrdev_region(MKDEV(sleepy_major, 0), sleepy_ndevices) *)
  {| sleepy_ndevices := sleepy_ndevices st; sleepy_major := sleepy_major st;
     sleepy_devices := sleepy_devices st; sleepy_class := sleepy_class st;
     chrdev_region := false; class_live := class_live st;
     array_live := array_live st;
     cdevs := cdevs st; nodes := nodes st; destroyed := destroyed st |}.

(** The loop of [sleepy_init_module] from index [i], [n] devices to go:
    the error of the first device that fails (0 if none does) and the index
    at which the loop stops. *)
Fixpoint construct_devices (env : init_env) (n i : nat) (st : module_state)
    : Z * nat * module_state :=
  match n with
  | O => (0, i, st)
  | S n' =>
      let '(err, st) := sleepy_construct_device env i st in
      if negb (err =? 0) then (err, i, st)
      else construct_devices env n' (S i) st
  end.

Definition sleepy_init_module (env : init_env) (st : module_state)
    : Z * module_state :=
  let devices_to_destroy := 0 in
  if sleepy_ndevices st <=? 0 then (- EINVAL, st)
  else
    (* Get a range of minor numbers (starting with 0) to work with *)
    let '(err, major) := alloc_chrdev_region env in
    if err <? 0 then (err, st)
    else
      let st :=
        {| sleepy_ndevices := sleepy_ndevices st; sleepy_major := major;
           sleepy_devices := sleepy_devices st;
           (* Create device class *)
           sleepy_class := class_create env;
           chrdev_region := true;
           class_live := negb (IS_ERR (class_create env));
           array_live := array_live st;
           cdevs := cdevs st; nodes := nodes st; destroyed := destroyed st |} in
      if IS_ERR (sleepy_class st) then
        (PTR_ERR (sleepy_class st), sleepy_cleanup_module devices_to_destroy st)
      else
        (* Allocate the array of devices *)
        let st :=
          {| sleepy_ndevices := sleepy_ndevices st; sleepy_major := sleepy_major st;
             sleepy_devices :=
               if kzalloc env
               then Valid (replicate (Z.to_nat (sleepy_ndevices st))
                                     {| data := None; flag := 0 |})
               else NULL;
             sleepy_class := sleepy_class st;
             chrdev_region := chrdev_region st; class_live := class_live st;
             array_live := kzalloc env;
             cdevs := cdevs st; nodes := nodes st; destroyed := destroyed st |} in
        if is_null (sleepy_devices st) then
          (- ENOMEM, sleepy_cleanup_module devices_to_destroy st)
        else
          (* Construct devices *)
          let '(err, i, st) :=
            construct_devices env (Z.to_nat (sleepy_ndevices st)) 0 st in
          if negb (err =? 0) then
            let devices_to_destroy := Z.of_nat i in
            (err, sleepy_cleanup_module devices_to_destroy st)
          else (0, st).

Definition sleepy_exit_module (st : module_state) : module_state :=
  sleepy_cleanup_module (sleepy_ndevices st) st.


(** Two states of the module that differ at most in the devices: in the
    content of the array and in the cdevs and nodes in place. *)
Definition same_but_devices (st st' : module_state) : Prop :=
  sleepy_ndevices st' = sleepy_ndevices st
  ∧ sleepy_major st' = sleepy_major st
  ∧ sleepy_class st' = sleepy_class st
  ∧ chrdev_region st' = chrdev_region st
  ∧ class_live st' = class_live st
  ∧ array_live st' = array_live st
  ∧ destroyed st' = destroyed st
  ∧ is_null (sleepy_devices st') = is_null (sleepy_devices st).

(** ** Sample data: an x86-64 kernel with HZ = 250, a 64-bit counter *)
Module Sample.

Definition x86_64 : config := {| HZ := 250; flag_bits := 64 |}.

Definition dev7 : sleepy_dev := {| data := None; flag := 7 |}.
Definition one_second : list byte := [x01; x00; x00; x00].
Definition zero_seconds : list byte := [x00; x00; x00; x00].
Definition minus_one : list byte := [xff; xff; xff; xff].
Definition int_max : list byte := [xff; xff; xff; x7f].

(** The mutex is free, nobody else reads the device, no signal arrives;
    the sleep lasts until its timer fires. *)
Definition alone : write_env :=
  {| w_lock := 0; w_first := 0;
     w_wakeups := [mk_wakeup false 0 250; mk_wakeup false 0 0] |}.

(** Another thread reads the device 10 jiffies into the sleep; had it not,
    the timer would have fired 240 jiffies later. *)
Definition woken : write_env :=
  {| w_lock := 0; w_first := 0;
     w_wakeups := [mk_wakeup false 0 10; mk_wakeup false 1 240;
                   mk_wakeup false 0 0] |}.

(** Another thread reads the device between the snapshot and the first
    check. *)
Definition raced : write_env :=
  {| w_lock := 0; w_first := 1; w_wakeups := [] |}.

(** Every kernel call of [sleepy_init_module] succeeds, but for
    [device_create] on minor number 1. *)
Definition second_fails : init_env :=
  {| alloc_chrdev_region := (0, 250); class_create := Valid ();
     kzalloc := true; cdev_add := λ _, 0;
     device_create := λ i, if (i =? 1)%nat then ERR_PTR (- ENOMEM)
                           else Valid () |}.

(** A loaded module with three devices, major number 250. *)
Definition loaded : module_state :=
  {| sleepy_ndevices := 3; sleepy_major := 250;
     sleepy_devices := Valid [dev7; dev7; dev7]; sleepy_class := Valid ();
     chrdev_region := true; class_live := true; array_live := true;
     cdevs := set_seq 0 3; nodes := set_seq 0 3; destroyed := [] |}.

End Sample.

(** ** More sample data *)
Module MoreSample.

(** A signal is pending when the wait begins. *)
Definition signalled : write_env :=
  {| w_lock := 0; w_first := 0; w_wakeups := [mk_wakeup true 0 0] |}.

(** The wait for the mutex is killed. *)
Definition killed : write_env :=
  {| w_lock := - EINTR; w_first := 0; w_wakeups := [] |}.

(** Every kernel call of [sleepy_init_module] succeeds. *)
Definition all_fine : init_env :=
  {| alloc_chrdev_region := (0, 250); class_create := Valid ();
     kzalloc := true; cdev_add := λ _, 0; device_create := λ _, Valid () |}.

(** The class cannot be created. *)
Definition no_class : init_env :=
  {| alloc_chrdev_region := (0, 250); class_create := ERR_PTR (- ENOMEM);
     kzalloc := true; cdev_add := λ _, 0; device_create := λ _, Valid () |}.

(** The range of minor numbers cannot be had. *)
Definition no_region : init_env :=
  {| alloc_chrdev_region := (-16, 0); class_create := Valid ();
     kzalloc := true; cdev_add := λ _, 0; device_create := λ _, Valid () |}.

End MoreSample.

(** * Properties *)

(** ** Machine integers *)
Section CIntFacts.

Lemma to_int_small (x : Z) : INT_MIN <= x <= INT_MAX -> to_int x = x.
Proof.
  unfold to_int, wrap_signed, INT_MIN, INT_MAX. intros Hx.
  change (2 ^ (32 - 1)) with 2147483648 in *.
  change (2 ^ 31) with 2147483648 in *.
  change (2 ^ 32) with 4294967296.
  rewrite Z.mod_small by lia. lia.
Qed.

Lemma to_int_range (x : Z) : INT_MIN <= to_int x <= INT_MAX.
Proof.
  unfold to_int, wrap_signed, INT_MIN, INT_MAX.
  change (2 ^ (32 - 1)) with 2147483648.
  change (2 ^ 31) with 2147483648.
  change (2 ^ 32) with 4294967296.
  pose proof (Z.mod_pos_bound (x + 2147483648) 4294967296). lia.
Qed.

(** An [int] stored in an [unsigned long] and read back as a [long] is
    the same number. *)
Lemma to_long_to_ulong (x : Z) :
  INT_MIN <= x <= INT_MAX -> to_long (to_ulong x) = x.
Proof.
  unfold to_long, to_ulong, wrap_signed, wrap_unsigned, INT_MIN, INT_MAX.
  change (2 ^ (64 - 1)) with 9223372036854775808.
  change (2 ^ 31) with 2147483648.
  change (2 ^ 64) with 18446744073709551616.
  intros Hx.
  rewrite Zplus_mod_idemp_l.
  rewrite Z.mod_small by lia. lia.
Qed.

Lemma int_mul_small (a b : Z) :
  INT_MIN <= a * b <= INT_MAX -> int_mul a b = a * b.
Proof. apply to_int_small. Qed.

End CIntFacts.

(** ** Reading the device: the counter *)
Section ReadFacts.

Context {cfg : config}.

Lemma flag_modulus_pos : 0 < flag_modulus.
Proof. unfold flag_modulus. apply Z.pow_pos_nonneg; lia. Qed.

Lemma flag_incr_ok (dev : sleepy_dev) : dev_ok (flag_incr dev).
Proof.
  unfold dev_ok, flag_incr; simpl.
  apply Z.mod_pos_bound, flag_modulus_pos.
Qed.

Lemma sleepy_read_acquired (dev : sleepy_dev) :
  sleepy_read 0 dev =
  {| returned := 0; dev_after := flag_incr dev;
     trace := [EvLock; EvFlagWrite (flag (flag_incr dev)); EvWakeUp; EvUnlock] |}.
Proof. reflexivity. Qed.

Lemma sleepy_read_killed (lock : Z) (dev : sleepy_dev) :
  lock ≠ 0 ->
  sleepy_read lock dev = {| returned := - EINTR; dev_after := dev; trace := [] |}.
Proof.
  intros Hlock. unfold sleepy_read.
  destruct (Z.eqb_spec lock 0) as [->|_]; [contradiction | reflexivity].
Qed.

Lemma sleepy_read_ok (lock : Z) (dev : sleepy_dev) :
  dev_ok dev -> dev_ok (dev_after (sleepy_read lock dev)).
Proof.
  intros Hok. destruct (Z.eq_dec lock 0) as [->|Hne].
  - rewrite sleepy_read_acquired. apply flag_incr_ok.
  - rewrite sleepy_read_killed by assumption. exact Hok.
Qed.

Lemma acquired_cons (lock : Z) (locks : list Z) :
  acquired (lock :: locks) = (if lock =? 0 then 1 else 0) + acquired locks.
Proof.
  unfold acquired. rewrite filter_cons.
  destruct (Z.eqb_spec lock 0) as [->|Hne].
  - rewrite decide_True by reflexivity. cbn [length]. lia.
  - rewrite decide_False by assumption. lia.
Qed.

Lemma acquired_nonneg (locks : list Z) : 0 <= acquired locks.
Proof. unfold acquired. lia. Qed.

Lemma sleepy_reads_flag_mod (locks : list Z) (dev : sleepy_dev) :
  dev_ok dev ->
  flag (sleepy_reads locks dev) = (flag dev + acquired locks) mod flag_modulus.
Proof.
  revert dev. induction locks as [|lock locks IH]; intros dev Hok.
  - cbn [sleepy_reads]. unfold acquired; cbn.
    rewrite Z.add_0_r, Z.mod_small; [reflexivity | exact Hok].
  - cbn [sleepy_reads].
    rewrite IH by (apply sleepy_read_ok; exact Hok).
    rewrite acquired_cons.
    destruct (Z.eqb_spec lock 0) as [->|Hne].
    + rewrite sleepy_read_acquired. cbn [dev_after flag_incr flag set_flag].
      rewrite Zplus_mod_idemp_l. f_equal. lia.
    + rewrite sleepy_read_killed by assumption. cbn [dev_after]. f_equal.
Qed.

(** C1 (amended).  After any sequence of reads of a device the counter is
    its old value plus the number of calls that got the mutex, reduced
    modulo 2^flag_bits; as long as that sum stays below 2^flag_bits it is
    the sum itself.  A call that is killed while it waits for the mutex
    adds nothing. *)
Theorem sleepy_reads_flag (locks : list Z) (dev : sleepy_dev) :
  dev_ok dev ->
  flag (sleepy_reads locks dev) = (flag dev + acquired locks) mod flag_modulus
  ∧ (flag dev + acquired locks < flag_modulus ->
     flag (sleepy_reads locks dev) = flag dev + acquired locks).
Proof.
  intros Hok. split.
  - apply sleepy_reads_flag_mod, Hok.
  - intros Hlt. rewrite sleepy_reads_flag_mod by exact Hok.
    apply Z.mod_small. pose proof (acquired_nonneg locks).
    unfold dev_ok in Hok. lia.
Qed.


End ReadFacts.

(** ** Traces *)
Section TraceFacts.

Lemma slept_app (tr1 tr2 : list event) :
  slept (tr1 ++ tr2) = slept tr1 + slept tr2.
Proof.
  induction tr1 as [|e tr1 IH]; [reflexivity|].
  destruct e; cbn [app slept]; rewrite IH; lia.
Qed.

Lemma slept_nonneg (tr : list event) : 0 <= slept tr.
Proof. induction tr as [|e tr IH]; [cbn; lia|]. destruct e; cbn [slept]; lia. Qed.

Lemma others_seen_app (tr1 tr2 : list event) :
  others_seen (tr1 ++ tr2) = (others_seen tr1 + others_seen tr2)%nat.
Proof.
  induction tr1 as [|e tr1 IH]; [reflexivity|].
  destruct e; cbn [app others_seen]; rewrite IH; lia.
Qed.

Lemma no_sleep_app (tr1 tr2 : list event) :
  no_sleep (tr1 ++ tr2) = no_sleep tr1 && no_sleep tr2.
Proof. apply forallb_app. Qed.

Lemma no_flag_write_app (tr1 tr2 : list event) :
  no_flag_write (tr1 ++ tr2) = no_flag_write tr1 && no_flag_write tr2.
Proof. apply forallb_app. Qed.

Lemma interrupted_app (tr1 tr2 : list event) :
  interrupted (tr1 ++ tr2) = interrupted tr1 || interrupted tr2.
Proof. apply existsb_app. Qed.

End TraceFacts.

(** Moves the events a caller puts in front of a callee's trace out of
    [interrupted] and [slept]. *)
Ltac push_trace o' :=
  cbn [before returned dev_after trace];
  rewrite ?interrupted_app, ?slept_app;
  cbn [interrupted existsb slept app orb];
  rewrite ?bool_decide_eq_false_2 by discriminate;
  cbn [orb];
  fold (interrupted (trace o'));
  try replace (0 + slept (trace o')) with (slept (trace o')) by lia.

(** ** Writing the device: the wait *)
Section WriteFacts.

Context {cfg : config}.

Lemma copy_from_user_holds (buf : list byte) (s : Z) :
  holds_int buf s -> copy_from_user buf 4 = (0, take 4 buf).
Proof.
  intros [Hlen _]. unfold copy_from_user.
  change (Z.to_nat 4) with 4%nat.
  rewrite length_take, Nat.min_l by exact Hlen. reflexivity.
Qed.

Lemma sleepy_write_waits (env : write_env) (buf : list byte) (s : Z)
    (dev : sleepy_dev) :
  holds_int buf s -> w_lock env = 0 ->
  sleepy_write env buf 4 dev =
  finish dev <$> wait_event_interruptible_timeout (to_ulong (flag dev))
                   (w_first env) (w_wakeups env)
                   (to_ulong (int_mul s HZ)) dev.
Proof.
  intros Hbuf Hlock. unfold sleepy_write.
  change (negb (4 =? 4)) with false. cbv iota.
  rewrite (copy_from_user_holds buf s Hbuf).
  destruct Hbuf as [_ ->]. rewrite Hlock.
  change (negb (0 =? 0)) with false. cbv iota.
  destruct (wait_event_interruptible_timeout _ _ _ _ _); reflexivity.
Qed.

(** C9.  A write whose count is not 4 returns -EINVAL; nothing of the
    device has been read, nothing copied, and the caller has not slept. *)
Theorem sleepy_write_bad_count (env : write_env) (buf : list byte)
    (count : Z) (dev : sleepy_dev) :
  count ≠ 4 ->
  sleepy_write env buf count dev =
  Some {| returned := - EINVAL; dev_after := dev; trace := [] |}.
Proof.
  intros Hcount. unfold sleepy_write.
  destruct (Z.eqb_spec count 4) as [->|_]; [contradiction | reflexivity].
Qed.

(** C6.  A write of 0 seconds that finds the counter as it was at the
    snapshot returns 0 after that single check, without having slept. *)
Theorem sleepy_write_zero (env : write_env) (buf : list byte)
    (dev : sleepy_dev) :
  holds_int buf 0 -> w_lock env = 0 ->
  condition (to_ulong (flag dev)) (others_signal (w_first env) dev) = false ->
  ∃ o, sleepy_write env buf 4 dev = Some o
       ∧ returned o = 0
       ∧ no_sleep (trace o) = true
       ∧ trace o = [EvCopy 0; EvLock; EvFlagRead (flag dev); EvUnlock;
                    EvOthers (w_first env);
                    EvFlagRead (flag (others_signal (w_first env) dev))].
Proof.
  intros Hbuf Hlock Hsame.
  rewrite (sleepy_write_waits env buf 0 dev Hbuf Hlock).
  unfold wait_event_interruptible_timeout. rewrite Hsame.
  change (to_long (to_ulong (int_mul 0 HZ))) with 0.
  cbn [___wait_cond_timeout andb orb Z.eqb fmap option_fmap option_map].
  eexists. split; [reflexivity|]. cbn. auto.
Qed.

Lemma others_signal_add (a b : nat) (dev : sleepy_dev) :
  others_signal b (others_signal a dev) = others_signal (a + b) dev.
Proof.
  unfold others_signal. rewrite Nat.add_comm. symmetry. apply Nat.iter_add.
Qed.

(** The device a wait leaves behind is the device it found, moved on by
    the reads of the other threads and by nothing else. *)
Lemma ___wait_event_frame (observed : Z) (wakeups : list wakeup) :
  ∀ (__ret : Z) (dev : sleepy_dev) (o : outcome),
    ___wait_event observed wakeups __ret dev = Some o ->
    dev_after o = others_signal (others_seen (trace o)) dev
    ∧ no_flag_write (trace o) = true.
Proof.
  induction wakeups as [|w wakeups IH]; intros __ret dev o; [discriminate|].
  cbn [___wait_event].
  destruct (___wait_cond_timeout _ __ret) as [stop ret1].
  destruct stop.
  { intros [= <-]. cbn. rewrite Nat.add_0_r. auto. }
  destruct (negb (prepare_to_wait_event (wk_pending w) =? 0)).
  { intros [= <-]. cbn. rewrite Nat.add_0_r. auto. }
  unfold schedule_timeout.
  destruct (ret1 <? 0);
    (destruct (___wait_event observed wakeups _ _) as [o'|] eqn:Hrec;
       [|discriminate]);
    intros [= <-]; apply IH in Hrec as [Hdev Hnw];
    cbn [before dev_after trace];
    rewrite !others_seen_app, !no_flag_write_app, Hnw, Hdev;
    cbn [others_seen no_flag_write forallb is_flag_write negb andb];
    rewrite others_signal_add; (split; [f_equal; lia | reflexivity]).
Qed.

Lemma wait_event_interruptible_timeout_frame (observed : Z) (first : nat)
    (wakeups : list wakeup) (timeout : Z) (dev : sleepy_dev) (o : outcome) :
  wait_event_interruptible_timeout observed first wakeups timeout dev = Some o ->
  dev_after o = others_signal (others_seen (trace o)) dev
  ∧ no_flag_write (trace o) = true.
Proof.
  unfold wait_event_interruptible_timeout.
  destruct (___wait_cond_timeout _ _) as [stop ret1].
  destruct stop.
  { intros [= <-]. cbn. rewrite Nat.add_0_r. auto. }
  destruct (___wait_event _ _ _ _) as [o'|] eqn:Hrec; [|discriminate].
  intros [= <-]. apply ___wait_event_frame in Hrec as [Hdev Hnw].
  cbn [before dev_after trace].
  rewrite !others_seen_app, !no_flag_write_app, Hnw, Hdev.
  cbn [others_seen no_flag_write forallb is_flag_write negb andb].
  rewrite others_signal_add. split; [f_equal; lia | reflexivity].
Qed.

(** C10.  Whatever its result, a write leaves the device as it found it,
    but for the reads that other threads completed meanwhile: the call
    itself never stores into the counter, and with no such read the
    device is unchanged. *)
Theorem sleepy_write_keeps_flag (env : write_env) (buf : list byte)
    (count : Z) (dev : sleepy_dev) (o : outcome) :
  sleepy_write env buf count dev = Some o ->
  dev_after o = others_signal (others_seen (trace o)) dev
  ∧ no_flag_write (trace o) = true
  ∧ (others_seen (trace o) = 0%nat -> dev_after o = dev).
Proof.
  intros Hw.
  assert (H : dev_after o = others_signal (others_seen (trace o)) dev
              ∧ no_flag_write (trace o) = true).
  { revert Hw. unfold sleepy_write.
    destruct (negb (count =? 4)); [intros [= <-]; auto|].
    destruct (copy_from_user buf count) as [ret copied].
    destruct (negb (ret =? 0)); [intros [= <-]; auto|].
    destruct (negb (w_lock env =? 0)); [intros [= <-]; auto|].
    destruct (wait_event_interruptible_timeout _ _ _ _ _) as [o'|] eqn:Hwait;
      [|discriminate].
    intros [= <-].
    apply wait_event_interruptible_timeout_frame in Hwait as [Hdev Hnw].
    cbn [dev_after trace others_seen no_flag_write forallb is_flag_write
         negb andb].
    fold (no_flag_write (trace o')). auto. }
  destruct H as [Hdev Hnw]. repeat split; [exact Hdev | exact Hnw |].
  intros Hquiet. rewrite Hdev, Hquiet. reflexivity.
Qed.

(** How a wait that starts with [__ret] jiffies (none of them negative)
    can end: given up for a signal; or the counter has moved, and what is
    returned is the rest of the jiffies, 1 at least; or the counter has
    not moved, the jiffies are used up and 0 is returned. *)
Lemma ___wait_event_budget (observed : Z) (wakeups : list wakeup) :
  ∀ (__ret : Z) (dev : sleepy_dev) (o : outcome),
    0 <= __ret ->
    ___wait_event observed wakeups __ret dev = Some o ->
    (interrupted (trace o) = true ∧ returned o = - ERESTARTSYS)
    ∨ (interrupted (trace o) = false
       ∧ condition observed (dev_after o) = true
       ∧ returned o = Z.max 1 (__ret - slept (trace o)))
    ∨ (interrupted (trace o) = false
       ∧ condition observed (dev_after o) = false
       ∧ returned o = 0 ∧ __ret <= slept (trace o)).
Proof.
  induction wakeups as [|w wakeups IH]; intros __ret dev o Hret; [discriminate|].
  cbn [___wait_event]. unfold ___wait_cond_timeout.
  set (dev1 := others_signal (wk_others w) dev).
  destruct (condition observed dev1) eqn:Hcond;
    destruct (Z.eqb_spec __ret 0) as [->|Hnz];
    cbn [andb orb].
  - (* the counter has moved, no jiffy is left: 1 *)
    intros [= <-]. right; left. cbn. auto.
  - (* the counter has moved in time *)
    intros [= <-]. right; left. cbn.
    repeat split; [exact Hcond | lia].
  - (* time is over *)
    change (0 =? 0) with true. cbn [orb].
    intros [= <-]. right; right. cbn. repeat split; [exact Hcond | lia].
  - destruct (Z.eqb_spec __ret 0) as [?|_]; [contradiction|]. cbn [orb].
    destruct (wk_pending w); cbn [prepare_to_wait_event].
    { change (negb (- ERESTARTSYS =? 0)) with true. cbv iota.
      intros [= <-]. left. cbn. auto. }
    change (negb (0 =? 0)) with false. cbv iota.
    unfold schedule_timeout.
    destruct (Z.ltb_spec __ret 0) as [?|_]; [lia|].
    set (ret2 := if __ret - Z.of_N (wk_elapsed w) <? 0 then 0
                 else __ret - Z.of_N (wk_elapsed w)).
    assert (Hret2 : 0 <= ret2 ∧
                    (ret2 = 0 ∧ __ret <= Z.of_N (wk_elapsed w)
                     ∨ ret2 = __ret - Z.of_N (wk_elapsed w))).
    { unfold ret2. destruct (Z.ltb_spec (__ret - Z.of_N (wk_elapsed w)) 0); lia. }
    destruct Hret2 as [Hret2 Hval].
    destruct (___wait_event observed wakeups ret2 dev1) as [o'|] eqn:Hrec;
      [|discriminate].
    intros [= <-].
    pose proof (slept_nonneg (trace o')) as Hs.
    push_trace o'.
    destruct (IH ret2 dev1 o' Hret2 Hrec)
      as [[Hi Hr] | [(Hi & Hc & Hr) | (Hi & Hc & Hr & Hle)]].
    + left. auto.
    + right; left. repeat split; [exact Hi | exact Hc | lia].
    + right; right. repeat split; [exact Hi | exact Hc | exact Hr | lia].
Qed.

Lemma wait_event_interruptible_timeout_budget (observed : Z) (first : nat)
    (wakeups : list wakeup) (timeout : Z) (dev : sleepy_dev) (o : outcome) :
  0 <= to_long timeout ->
  wait_event_interruptible_timeout observed first wakeups timeout dev = Some o ->
  (interrupted (trace o) = true ∧ returned o = - ERESTARTSYS)
  ∨ (interrupted (trace o) = false
     ∧ condition observed (dev_after o) = true
     ∧ returned o = Z.max 1 (to_long timeout - slept (trace o)))
  ∨ (interrupted (trace o) = false
     ∧ condition observed (dev_after o) = false
     ∧ returned o = 0 ∧ to_long timeout <= slept (trace o)).
Proof.
  intros Ht. unfold wait_event_interruptible_timeout, ___wait_cond_timeout.
  set (t := to_long timeout) in *.
  set (dev1 := others_signal first dev).
  destruct (condition observed dev1) eqn:Hcond;
    destruct (Z.eqb_spec t 0) as [Hz|Hnz]; cbn [andb orb].
  - intros [= <-]. right; left. cbn. rewrite Hz. auto.
  - intros [= <-]. right; left. cbn. repeat split; [exact Hcond | lia].
  - rewrite Hz. change (0 =? 0) with true. cbv iota.
    intros [= <-]. right; right. cbn. repeat split; [exact Hcond | lia].
  - destruct (Z.eqb_spec t 0) as [?|_]; [contradiction|]. cbv iota.
    destruct (___wait_event observed wakeups t dev1) as [o'|] eqn:Hrec;
      [|discriminate].
    intros [= <-]. push_trace o'.
    exact (___wait_event_budget observed wakeups t dev1 o' Ht Hrec).
Qed.

Lemma jiffies_of_seconds (s : Z) :
  INT_MIN <= s * HZ <= INT_MAX ->
  to_long (to_ulong (int_mul s HZ)) = s * HZ.
Proof.
  intros Hs. rewrite int_mul_small by exact Hs. apply to_long_to_ulong, Hs.
Qed.

(** A wait that starts with jiffies to spend, none negative, comes back
    within the wake-ups that cover them. *)
Lemma ___wait_event_returns (observed : Z) (wakeups : list wakeup) :
  ∀ (__ret : Z) (dev : sleepy_dev),
    0 <= __ret -> covers wakeups __ret = true ->
    ∃ o, ___wait_event observed wakeups __ret dev = Some o.
Proof.
  induction wakeups as [|w wakeups IH]; intros __ret dev Hret Hcov;
    [discriminate|].
  cbn [___wait_event]. unfold ___wait_cond_timeout.
  destruct (condition observed _); cbn [andb orb]; [eexists; reflexivity|].
  destruct (Z.eqb_spec __ret 0) as [Hz|Hnz]; [eexists; reflexivity|].
  destruct (negb (prepare_to_wait_event (wk_pending w) =? 0));
    [eexists; reflexivity|].
  unfold schedule_timeout.
  destruct (Z.ltb_spec __ret 0) as [?|_]; [lia|].
  cbn [covers] in Hcov.
  destruct (Z.leb_spec __ret 0) as [?|_]; [lia|]. cbn [orb] in Hcov.
  set (ret2 := if __ret - Z.of_N (wk_elapsed w) <? 0 then 0
               else __ret - Z.of_N (wk_elapsed w)).
  destruct (IH ret2 (others_signal (wk_others w) dev)) as [o' Ho'].
  - unfold ret2. destruct (Z.ltb_spec (__ret - Z.of_N (wk_elapsed w)) 0); lia.
  - unfold ret2. destruct (Z.ltb_spec (__ret - Z.of_N (wk_elapsed w)) 0);
      [|exact Hcov].
    destruct wakeups; [discriminate | reflexivity].
  - rewrite Ho'. eexists; reflexivity.
Qed.

Lemma wait_event_interruptible_timeout_returns (observed : Z) (first : nat)
    (wakeups : list wakeup) (timeout : Z) (dev : sleepy_dev) :
  0 <= to_long timeout -> covers wakeups (to_long timeout) = true ->
  ∃ o, wait_event_interruptible_timeout observed first wakeups timeout dev
       = Some o.
Proof.
  intros Ht Hcov. unfold wait_event_interruptible_timeout.
  destruct (___wait_cond_timeout _ _) as [stop ret1].
  destruct stop; [eexists; reflexivity|].
  destruct (___wait_event_returns observed wakeups (to_long timeout)
              (others_signal first dev) Ht Hcov) as [o' ->].
  eexists; reflexivity.
Qed.

(** C2 (amended).  A write of [s] seconds, [0 <= s] and [s * HZ] within
    [int], that has taken the mutex comes back once its time is covered,
    and, when its wait is not given up for a signal, in one of two ways.
    Woken with the counter moved, it returns the jiffies that are left (at
    least 1) in whole seconds, rounded down: a number from 0 to [s], and 0
    whenever less than a second is left.  With the counter unmoved and the
    time used up, it returns 0. *)
Theorem sleepy_write_outcomes (env : write_env) (buf : list byte) (s : Z)
    (dev : sleepy_dev) :
  1 < HZ -> holds_int buf s -> 0 <= s -> s * HZ <= INT_MAX ->
  w_lock env = 0 ->
  covers (w_wakeups env) (s * HZ) = true ->
  ∃ o,
    sleepy_write env buf 4 dev = Some o
    ∧ (interrupted (trace o) = true
       ∨ (interrupted (trace o) = false
          ∧ condition (to_ulong (flag dev)) (dev_after o) = true
          ∧ returned o = c_div (Z.max 1 (s * HZ - slept (trace o))) HZ
          ∧ 0 <= returned o <= s)
       ∨ (interrupted (trace o) = false
          ∧ condition (to_ulong (flag dev)) (dev_after o) = false
          ∧ s * HZ <= slept (trace o)
          ∧ returned o = 0)).
Proof.
  intros HHZ Hbuf Hs Hmax Hlock Hcov.
  rewrite (sleepy_write_waits env buf s dev Hbuf Hlock).
  assert (Hrange : INT_MIN <= s * HZ <= INT_MAX)
    by (unfold INT_MIN, INT_MAX in *; nia).
  pose proof (jiffies_of_seconds s Hrange) as Hjif.
  destruct (wait_event_interruptible_timeout_returns (to_ulong (flag dev))
              (w_first env) (w_wakeups env) (to_ulong (int_mul s HZ)) dev)
    as [o' Hwait]; [rewrite Hjif; nia | rewrite Hjif; exact Hcov |].
  rewrite Hwait. eexists. split; [reflexivity|].
  apply wait_event_interruptible_timeout_budget in Hwait;
    rewrite Hjif in *; [|nia].
  pose proof (slept_nonneg (trace o')) as Hslept.
  unfold finish. push_trace o'.
  destruct Hwait as [[Hi _] | [(Hi & Hc & Hr) | (Hi & Hc & Hr & Hle)]].
  - left. exact Hi.
  - right; left. rewrite Hr.
    set (raw := Z.max 1 (s * HZ - slept (trace o'))).
    assert (Hraw : 1 <= raw) by (unfold raw; lia).
    destruct (Z.eqb_spec raw 0) as [?|_]; [lia|]. cbn [negb].
    repeat split; [exact Hi | exact Hc | |].
    + apply Z.quot_pos; lia.
    + unfold c_div. destruct (Z.eq_dec s 0) as [->|Hs0].
      * assert (raw = 1) by (unfold raw; lia).
        rewrite Z.quot_small by lia. lia.
      * apply Z.quot_le_upper_bound; [lia|]. unfold raw. nia.
  - right; right. rewrite Hr. cbn. auto.
Qed.

(** When the counter has already moved at the first check and the jiffies
    of [s] seconds fit in an [int], the write returns [s] at once. *)
Lemma sleepy_write_changed_at_first_check (env : write_env)
    (buf : list byte) (s : Z) (dev : sleepy_dev) :
  1 < HZ -> holds_int buf s -> INT_MIN <= s * HZ <= INT_MAX ->
  w_lock env = 0 ->
  condition (to_ulong (flag dev)) (others_signal (w_first env) dev) = true ->
  ∃ o, sleepy_write env buf 4 dev = Some o
       ∧ returned o = s
       ∧ no_sleep (trace o) = true.
Proof.
  intros HHZ Hbuf Hrange Hlock Hmoved.
  rewrite (sleepy_write_waits env buf s dev Hbuf Hlock).
  unfold wait_event_interruptible_timeout, ___wait_cond_timeout.
  rewrite Hmoved, (jiffies_of_seconds s Hrange). cbn [andb orb].
  eexists. split; [reflexivity|].
  unfold finish; cbn [returned trace]. split; [|reflexivity].
  unfold c_div. destruct (Z.eqb_spec (s * HZ) 0) as [Hz|Hnz].
  - assert (s = 0) by nia. subst s.
    change (negb (1 =? 0)) with true. cbv iota.
    apply Z.quot_small. lia.
  - destruct (Z.eqb_spec (s * HZ) 0) as [?|_]; [contradiction|]. cbn [negb].
    apply Z.quot_mul. lia.
Qed.

(** Whatever the value of [HZ], from 2 up, the jiffies of INT_MAX seconds
    do not fit in an [int]: a write of INT_MAX seconds that finds the
    counter moved at its first check returns less than INT_MAX. *)
Lemma sleepy_write_int_max (env : write_env) (buf : list byte)
    (dev : sleepy_dev) :
  2 <= HZ <= INT_MAX -> holds_int buf INT_MAX -> w_lock env = 0 ->
  condition (to_ulong (flag dev)) (others_signal (w_first env) dev) = true ->
  ∃ o, sleepy_write env buf 4 dev = Some o ∧ returned o < INT_MAX.
Proof.
  intros HHZ Hbuf Hlock Hmoved.
  rewrite (sleepy_write_waits env buf INT_MAX dev Hbuf Hlock).
  unfold wait_event_interruptible_timeout, ___wait_cond_timeout.
  rewrite Hmoved. unfold int_mul.
  pose proof (to_int_range (INT_MAX * HZ)) as Hx.
  rewrite (to_long_to_ulong _ Hx).
  set (x := to_int (INT_MAX * HZ)) in *. cbn [andb orb].
  eexists. split; [reflexivity|]. unfold finish; cbn [returned].
  unfold INT_MIN, INT_MAX, c_div in *.
  change (2 ^ 31) with 2147483648 in *.
  destruct (Z.eqb_spec x 0) as [_|Hnz].
  - change (negb (1 =? 0)) with true. cbv iota.
    rewrite Z.quot_small by lia. lia.
  - destruct (Z.eqb_spec x 0) as [?|_]; [contradiction|]. cbn [negb].
    apply Z.le_lt_trans with 1073741824; [|lia].
    apply Z.quot_le_upper_bound; lia.
Qed.

(** C3 (amended).  A negative number of seconds is not rejected.  With
    [s < 0], [s * HZ] within [int] and the mutex taken, the write goes
    through the wait: the counter is snapshotted and compared, the
    negative timeout is refused by [schedule_timeout] so that the caller
    never sleeps, and the call returns [s] itself when the counter has
    moved by the first or the second check, and otherwise, no signal
    pending, 0. *)
Theorem sleepy_write_negative (env : write_env) (buf : list byte) (s : Z)
    (dev : sleepy_dev) (w1 w2 : wakeup) (ws : list wakeup) :
  1 < HZ -> holds_int buf s -> s < 0 -> INT_MIN <= s * HZ ->
  w_lock env = 0 ->
  w_wakeups env = w1 :: w2 :: ws ->
  let observed := to_ulong (flag dev) in
  let dev1 := others_signal (w_first env) dev in
  let dev2 := others_signal (wk_others w1) dev1 in
  ∃ o tr,
    sleepy_write env buf 4 dev = Some o
    ∧ trace o = [EvCopy 0; EvLock; EvFlagRead (flag dev); EvUnlock;
                 EvOthers (w_first env); EvFlagRead (flag dev1)] ++ tr
    ∧ no_sleep (trace o) = true
    ∧ (condition observed dev1 || condition observed dev2 = true ->
       returned o = s)
    ∧ (condition observed dev1 || condition observed dev2 = false ->
       wk_pending w1 = false -> returned o = 0).
Proof.
  intros HHZ Hbuf Hs Hmin Hlock Hwk observed dev1 dev2.
  assert (Hrange : INT_MIN <= s * HZ <= INT_MAX)
    by (unfold INT_MIN, INT_MAX in *; nia).
  assert (Hneg : s * HZ < 0) by nia.
  assert (Hquot : c_div (s * HZ) HZ = s) by (apply Z.quot_mul; lia).
  assert (Hone : c_div 1 HZ = 0) by (apply Z.quot_small; lia).
  assert (Hnz : (s * HZ =? 0) = false) by (apply Z.eqb_neq; lia).
  assert (Hlt : (s * HZ <? 0) = true) by (apply Z.ltb_lt; lia).
  rewrite (sleepy_write_waits env buf s dev Hbuf Hlock), Hwk.
  unfold wait_event_interruptible_timeout, ___wait_cond_timeout.
  rewrite (jiffies_of_seconds s Hrange).
  fold observed. fold dev1.
  destruct (condition observed dev1) eqn:Hc1; cbn [andb orb]; rewrite ?Hnz.
  { (* moved at the first check *)
    eexists; eexists. split; [reflexivity|].
    unfold finish; cbn [returned trace]. rewrite Hnz. cbn [negb].
    split; [reflexivity|]. split; [reflexivity|].
    split; [intros _; exact Hquot | discriminate]. }
  cbn [___wait_event]. unfold ___wait_cond_timeout. fold dev2.
  destruct (condition observed dev2) eqn:Hc2; cbn [andb orb]; rewrite ?Hnz.
  { (* moved at the second check *)
    eexists; eexists. split; [reflexivity|].
    unfold finish;
      cbn [returned trace before fmap option_fmap option_map].
    rewrite Hnz. cbn [negb].
    split; [reflexivity|]. split; [reflexivity|].
    split; [intros _; exact Hquot | discriminate]. }
  destruct (wk_pending w1); cbn [prepare_to_wait_event].
  { (* a signal is pending *)
    change (negb (- ERESTARTSYS =? 0)) with true. cbv iota.
    eexists; eexists. split; [reflexivity|].
    unfold finish;
      cbn [returned trace before fmap option_fmap option_map].
    split; [reflexivity|]. split; [reflexivity|].
    split; [discriminate | intros _; discriminate]. }
  change (negb (0 =? 0)) with false. cbv iota.
  unfold schedule_timeout. rewrite Hlt.
  (* the timeout is refused; the next turn ends the wait *)
  cbn [___wait_event]. unfold ___wait_cond_timeout.
  change (0 =? 0) with true.
  destruct (condition observed (others_signal (wk_others w2) dev2));
    cbn [andb orb];
    (eexists; eexists; split; [reflexivity|]);
    unfold finish;
    cbn [returned trace before fmap option_fmap option_map];
    (split; [reflexivity|]); (split; [reflexivity|]);
    (split; [discriminate | intros _ _]).
  - change (negb (1 =? 0)) with true. cbv iota. exact Hone.
  - reflexivity.
Qed.

End WriteFacts.

(** ** Open files and the array of devices *)
Section FileFacts.

Context {cfg : config}.

Lemma sleepy_open_private_data (st : module_state) (ino : inode)
    (filp0 filp : file) :
  sleepy_open st ino filp0 = (0, filp) ->
  private_data filp = Some (Z.to_nat (i_minor ino))
  ∧ i_major ino = sleepy_major st
  ∧ 0 <= i_minor ino < to_uint (sleepy_ndevices st).
Proof.
  unfold sleepy_open.
  destruct (Z.eqb_spec (i_major ino) (sleepy_major st)) as [Hmj|_];
    [|intros [= ?]; discriminate].
  destruct (Z.ltb_spec (i_minor ino) 0) as [_|Hlo];
    [intros [= ?]; discriminate|].
  destruct (Z.leb_spec (to_uint (sleepy_ndevices st)) (i_minor ino)) as [_|Hhi];
    [intros [= ?]; discriminate|].
  cbn [negb orb].
  destruct (negb (bool_decide _)); [intros [= ?]; discriminate|].
  intros [= <-]. cbn. repeat split; [exact Hmj | lia | lia].
Qed.

(** C8 (amended).  A read through a file opened on minor number [i]
    changes device [i] of the array and no other.  When the call gets the
    mutex it returns 0 and the counter of device [i] has gone up by one
    (modulo 2^flag_bits); when its wait for the mutex is killed it returns
    -EINTR and the counter of device [i] is as before.  Either way the
    [data] of device [i], every other device and the length of the array
    are as they were. *)
Theorem vfs_read_only_its_device (st : module_state) (ino : inode)
    (filp0 filp : file) (lock : Z) (devs : list sleepy_dev) :
  sleepy_open st ino filp0 = (0, filp) ->
  let i := Z.to_nat (i_minor ino) in
  (i < length devs)%nat ->
  ∃ dev o devs',
    devs !! i = Some dev
    ∧ vfs_read lock filp devs = Some (o, devs')
    ∧ returned o = (if lock =? 0 then 0 else - EINTR)
    ∧ devs' !! i
      = Some {| data := data dev;
                flag := if lock =? 0 then (flag dev + 1) mod flag_modulus
                        else flag dev |}
    ∧ (∀ j, j ≠ i -> devs' !! j = devs !! j)
    ∧ length devs' = length devs.
Proof.
  intros Hopen i Hlen.
  apply sleepy_open_private_data in Hopen as (Hpd & _ & _).
  destruct (lookup_lt_is_Some_2 devs i Hlen) as [dev Hdev].
  exists dev, (sleepy_read lock dev),
    (<[i := dev_after (sleepy_read lock dev)]> devs).
  split; [exact Hdev|]. split.
  { unfold vfs_read, through. rewrite Hpd. fold i. rewrite Hdev. reflexivity. }
  rewrite list_lookup_insert_eq by exact Hlen.
  split; [|split; [|split; [|apply length_insert]]].
  - unfold sleepy_read. destruct (lock =? 0); reflexivity.
  - unfold sleepy_read. destruct (lock =? 0); cbn [negb dev_after].
    + reflexivity.
    + destruct dev; reflexivity.
  - intros j Hj. apply list_lookup_insert_ne. congruence.
Qed.

End FileFacts.

(** ** Loading the module *)
Section InitFacts.

Lemma same_but_devices_refl (st : module_state) : same_but_devices st st.
Proof. unfold same_but_devices. auto 10. Qed.

Lemma same_but_devices_trans (st1 st2 st3 : module_state) :
  same_but_devices st1 st2 -> same_but_devices st2 st3 ->
  same_but_devices st1 st3.
Proof.
  unfold same_but_devices.
  intros (a1&a2&a3&a4&a5&a6&a7&a8) (b1&b2&b3&b4&b5&b6&b7&b8).
  repeat split; congruence.
Qed.

Lemma sleepy_construct_device_spec (env : init_env) (minor : nat)
    (st : module_state) :
  ∃ st', sleepy_construct_device env minor st = (construct_error env minor, st')
    ∧ same_but_devices st st'
    ∧ (construct_error env minor = 0 ->
       cdevs st' = {[minor]} ∪ cdevs st ∧ nodes st' = {[minor]} ∪ nodes st)
    ∧ (construct_error env minor ≠ 0 ->
       cdevs st' ⊆ cdevs st ∧ nodes st' = nodes st).
Proof.
  unfold sleepy_construct_device, construct_error.
  assert (Hnull : ∀ d, is_null (match sleepy_devices st with
                                | Valid devs => Valid (<[minor:=d]> devs)
                                | p => p
                                end) = is_null (sleepy_devices st))
    by (intros d; destruct (sleepy_devices st); reflexivity).
  destruct (Z.eqb_spec (cdev_add env minor) 0) as [Hadd|Hadd]; cbn [negb].
  - destruct (IS_ERR (device_create env minor)) eqn:Herr.
    + eexists. split; [reflexivity|]. cbn.
      split; [unfold same_but_devices; cbn; auto 10|].
      split; [|intros _; split; [set_solver | reflexivity]].
      intros Hz. exfalso. unfold IS_ERR in Herr.
      destruct (device_create env minor); try discriminate.
      cbn in Hz. subst e. discriminate.
    + eexists. split; [reflexivity|]. cbn.
      split; [unfold same_but_devices; cbn; auto 10|].
      split; [auto | intros []; reflexivity].
  - eexists. split; [reflexivity|]. cbn.
    split; [unfold same_but_devices; cbn; auto 10|].
    split; [intros; contradiction | auto].
Qed.

(** The loop stops at the first device whose construction fails; the
    cdevs and nodes then in place are those of the devices before it. *)
Lemma construct_devices_fails (env : init_env) (k : nat) :
  construct_error env k ≠ 0 ->
  ∀ (n i : nat) (st : module_state),
    (i <= k < i + n)%nat ->
    (∀ m, (i <= m < k)%nat -> construct_error env m = 0) ->
    ∃ st', construct_devices env n i st = (construct_error env k, k, st')
      ∧ same_but_devices st st'
      ∧ cdevs st' ⊆ cdevs st ∪ set_seq i (k - i)
      ∧ nodes st' ⊆ nodes st ∪ set_seq i (k - i).
Proof.
  intros Hk. induction n as [|n IH]; intros i st Hik Hbefore; [lia|].
  cbn [construct_devices].
  destruct (sleepy_construct_device_spec env i st)
    as (st1 & -> & Hsame & Hok & Hfail).
  destruct (Nat.eq_dec i k) as [->|Hne].
  - (* the failing device *)
    destruct (Z.eqb_spec (construct_error env k) 0) as [?|_];
      [contradiction|]. cbn [negb].
    exists st1. split; [reflexivity|]. split; [exact Hsame|].
    destruct (Hfail Hk) as [Hc Hn]. rewrite Hn. set_solver.
  - (* a device that is built *)
    assert (Hi : construct_error env i = 0) by (apply Hbefore; lia).
    rewrite Hi. change (negb (0 =? 0)) with false. cbv iota.
    destruct (Hok Hi) as [Hc Hn].
    destruct (IH (S i) st1) as (st' & Hrun & Hsame' & Hc' & Hn');
      [lia | intros m Hm; apply Hbefore; lia |].
    exists st'. split; [exact Hrun|].
    split; [eapply same_but_devices_trans; eassumption|].
    replace (k - i)%nat with (S (k - S i)) by lia.
    rewrite set_seq_S_start. rewrite Hc in Hc'. rewrite Hn in Hn'.
    set_solver.
Qed.

(** Destroying the devices of a list removes their cdevs and nodes and
    records them, in order. *)
Lemma destroy_list_spec (l : list nat) :
  ∀ st : module_state,
    let st' := foldl (λ st i, sleepy_destroy_device i st) st l in
    sleepy_ndevices st' = sleepy_ndevices st
    ∧ sleepy_major st' = sleepy_major st
    ∧ sleepy_devices st' = sleepy_devices st
    ∧ sleepy_class st' = sleepy_class st
    ∧ chrdev_region st' = chrdev_region st
    ∧ class_live st' = class_live st
    ∧ array_live st' = array_live st
    ∧ cdevs st' = cdevs st ∖ list_to_set l
    ∧ nodes st' = nodes st ∖ list_to_set l
    ∧ destroyed st' = destroyed st ++ l.
Proof.
  induction l as [|i l IH]; intros st; cbn [foldl].
  - cbn. rewrite app_nil_r. repeat split; set_solver.
  - destruct (IH (sleepy_destroy_device i st))
      as (H1&H2&H3&H4&H5&H6&H7&H8&H9&H10).
    cbn zeta. rewrite H1, H2, H3, H4, H5, H6, H7, H8, H9, H10.
    cbn [sleepy_destroy_device sleepy_ndevices sleepy_major sleepy_devices
         sleepy_class chrdev_region class_live array_live cdevs nodes
         destroyed list_to_set].
    rewrite <- app_assoc. repeat split; set_solver.
Qed.

(** The clean-up of a module whose class and array exist. *)
Lemma sleepy_cleanup_module_spec (k : nat) (st : module_state) :
  is_null (sleepy_devices st) = false ->
  sleepy_class st = Valid () ->
  let st' := sleepy_cleanup_module (Z.of_nat k) st in
  destroyed st' = destroyed st ++ seq 0 k
  ∧ cdevs st' = cdevs st ∖ set_seq 0 k
  ∧ nodes st' = nodes st ∖ set_seq 0 k
  ∧ chrdev_region st' = false
  ∧ class_live st' = false
  ∧ array_live st' = false
  ∧ sleepy_devices st' = Freed.
Proof.
  intros Hdevs Hclass. unfold sleepy_cleanup_module, destroy_devices.
  rewrite Hdevs, Nat2Z.id. cbn [negb].
  destruct (destroy_list_spec (seq 0 k) st)
    as (H1&H2&H3&H4&H5&H6&H7&H8&H9&H10).
  cbn [sleepy_class sleepy_devices chrdev_region class_live array_live
       cdevs nodes destroyed].
  rewrite H4, Hclass. cbn [is_null negb IS_ERR].
  cbn [sleepy_class sleepy_devices chrdev_region class_live array_live
       cdevs nodes destroyed].
  rewrite H8, H9, H10, list_to_set_seq. auto 10.
Qed.

(** C7.  When the first device whose construction fails is device [k],
    [sleepy_init_module] returns that device's error after having
    destroyed devices 0 .. k-1, in order, and released everything it had
    taken: no cdev and no device node is left, the array is freed, the
    class destroyed, the range of minor numbers unregistered. *)
Theorem sleepy_init_module_rollback (env : init_env) (ndevices : Z)
    (k : nat) :
  0 < ndevices ->
  0 <= (alloc_chrdev_region env).1 ->
  class_create env = Valid () ->
  kzalloc env = true ->
  (k < Z.to_nat ndevices)%nat ->
  (∀ m, (m < k)%nat -> construct_error env m = 0) ->
  construct_error env k ≠ 0 ->
  ∃ st',
    sleepy_init_module env (fresh ndevices) = (construct_error env k, st')
    ∧ destroyed st' = seq 0 k
    ∧ released st'
    ∧ sleepy_devices st' = Freed.
Proof.
  intros Hn Halloc Hclass Hkz Hk Hbefore Hfail.
  unfold sleepy_init_module. cbn [fresh sleepy_ndevices].
  destruct (Z.leb_spec ndevices 0) as [?|_]; [lia|].
  destruct (alloc_chrdev_region env) as [err major]. cbn [fst] in Halloc.
  destruct (Z.ltb_spec err 0) as [?|_]; [lia|].
  cbn [sleepy_class sleepy_ndevices sleepy_devices]. rewrite Hclass, Hkz.
  cbn [IS_ERR negb is_null].
  match goal with
  | |- context [construct_devices env ?n 0%nat ?st] =>
      destruct (construct_devices_fails env k Hfail n 0%nat st)
        as (st1 & Hrun & Hsame & Hc & Hnd);
      [lia | intros m Hm; apply Hbefore; lia |]
  end.
  rewrite Hrun.
  destruct (Z.eqb_spec (construct_error env k) 0) as [?|_]; [contradiction|].
  cbn [negb].
  destruct Hsame as (_ & _ & Hcl & _ & _ & _ & Hdes & Hnull).
  cbn [sleepy_class sleepy_devices destroyed is_null] in Hcl, Hdes, Hnull.
  cbn [cdevs nodes fresh] in Hc, Hnd.
  destruct (sleepy_cleanup_module_spec k st1 Hnull Hcl)
    as (Hd & Hcd & Hno & Hreg & Hlive & Harr & Hfreed).
  eexists. split; [reflexivity|].
  split; [rewrite Hd, Hdes; reflexivity|].
  split; [|exact Hfreed].
  unfold released. rewrite Hreg, Hlive, Harr, Hcd, Hno.
  rewrite Nat.sub_0_r in Hc, Hnd.
  repeat split; set_solver.
Qed.

End InitFacts.

(** * The theorems at work: an x86-64 kernel with HZ = 250 *)
Section Examples.

Import Sample.
#[local] Existing Instance x86_64.

Lemma sleepy_reads_flag_witness :
  dev_ok dev7
  ∧ flag (sleepy_reads [0; - EINTR; 0] dev7) = (7 + 2) mod flag_modulus
  ∧ (7 + 2 < flag_modulus -> flag (sleepy_reads [0; - EINTR; 0] dev7) = 7 + 2).
Proof.
  assert (Hok : dev_ok dev7) by (vm_compute; split; [discriminate | reflexivity]).
  split; [exact Hok|].
  exact (sleepy_reads_flag [0; - EINTR; 0] dev7 Hok).
Defined.

(** C1 as stated fails twice: a read that is killed while it waits for
    the mutex adds nothing to the counter, and a read that finds the
    counter at its largest value brings it back to 0. *)
Lemma sleepy_reads_flag_counterexample :
  flag (sleepy_reads [- EINTR] dev7) ≠ flag dev7 + Z.of_nat (length [- EINTR])
  ∧ flag (sleepy_reads [0] {| data := None; flag := 2 ^ 64 - 1 |})
    ≠ (2 ^ 64 - 1) + Z.of_nat (length [0]).
Proof. split; vm_compute; discriminate. Qed.


Lemma sleepy_write_bad_count_witness :
  3 ≠ 4
  ∧ sleepy_write alone one_second 3 dev7 =
    Some {| returned := - EINVAL; dev_after := dev7; trace := [] |}.
Proof.
  assert (H : 3 ≠ 4) by discriminate.
  split; [exact H|].
  exact (sleepy_write_bad_count alone one_second 3 dev7 H).
Defined.

Lemma sleepy_write_zero_witness :
  ∃ o, sleepy_write alone zero_seconds 4 dev7 = Some o
       ∧ returned o = 0
       ∧ no_sleep (trace o) = true
       ∧ trace o = [EvCopy 0; EvLock; EvFlagRead 7; EvUnlock;
                    EvOthers 0; EvFlagRead 7].
Proof.
  apply (sleepy_write_zero alone zero_seconds dev7).
  - split; [vm_compute; lia | vm_compute; reflexivity].
  - reflexivity.
  - vm_compute; reflexivity.
Defined.

Lemma sleepy_write_keeps_flag_witness :
  ∃ o, sleepy_write woken one_second 4 dev7 = Some o
       ∧ dev_after o = others_signal (others_seen (trace o)) dev7
       ∧ no_flag_write (trace o) = true
       ∧ (others_seen (trace o) = 0%nat -> dev_after o = dev7).
Proof.
  eexists. split; [vm_compute; reflexivity|].
  apply (sleepy_write_keeps_flag woken one_second 4 dev7).
  vm_compute; reflexivity.
Defined.

Lemma sleepy_write_outcomes_witness :
  ∃ o, sleepy_write woken one_second 4 dev7 = Some o
       ∧ (interrupted (trace o) = true
          ∨ (interrupted (trace o) = false
             ∧ condition (to_ulong (flag dev7)) (dev_after o) = true
             ∧ returned o = c_div (Z.max 1 (1 * HZ - slept (trace o))) HZ
             ∧ 0 <= returned o <= 1)
          ∨ (interrupted (trace o) = false
             ∧ condition (to_ulong (flag dev7)) (dev_after o) = false
             ∧ 1 * HZ <= slept (trace o)
             ∧ returned o = 0)).
Proof.
  apply (sleepy_write_outcomes woken one_second 1 dev7).
  - reflexivity.
  - split; [vm_compute; lia | vm_compute; reflexivity].
  - discriminate.
  - vm_compute; discriminate.
  - reflexivity.
  - vm_compute; reflexivity.
Defined.

(** C2 as stated fails: two writes of one second return the same 0, one
    woken by a read 10 jiffies into its sleep, the other after the whole
    second has passed with no read. *)
Lemma sleepy_write_outcomes_counterexample :
  ∃ o1 o2,
    sleepy_write woken one_second 4 dev7 = Some o1
    ∧ sleepy_write alone one_second 4 dev7 = Some o2
    ∧ condition (to_ulong (flag dev7)) (dev_after o1) = true
    ∧ slept (trace o1) = 10
    ∧ condition (to_ulong (flag dev7)) (dev_after o2) = false
    ∧ slept (trace o2) = 250
    ∧ returned o1 = returned o2.
Proof.
  do 2 eexists. split; [vm_compute; reflexivity|].
  split; [vm_compute; reflexivity|].
  repeat split; vm_compute; reflexivity.
Qed.

Lemma sleepy_write_negative_witness :
  ∃ o tr,
    sleepy_write alone minus_one 4 dev7 = Some o
    ∧ trace o = [EvCopy 0; EvLock; EvFlagRead 7; EvUnlock;
                 EvOthers 0; EvFlagRead 7] ++ tr
    ∧ no_sleep (trace o) = true
    ∧ (condition (to_ulong (flag dev7)) (others_signal 0 dev7)
       || condition (to_ulong (flag dev7))
            (others_signal 0 (others_signal 0 dev7)) = true ->
       returned o = -1)
    ∧ (condition (to_ulong (flag dev7)) (others_signal 0 dev7)
       || condition (to_ulong (flag dev7))
            (others_signal 0 (others_signal 0 dev7)) = false ->
       false = false -> returned o = 0).
Proof.
  apply (sleepy_write_negative alone minus_one (-1) dev7
           (mk_wakeup false 0 250) (mk_wakeup false 0 0) []).
  - reflexivity.
  - split; [vm_compute; lia | vm_compute; reflexivity].
  - reflexivity.
  - vm_compute; discriminate.
  - reflexivity.
  - reflexivity.
Defined.

(** C3 as stated fails: a write of -1 seconds takes the mutex, looks at
    the counter three times and returns 0, not -EINVAL. *)
Lemma sleepy_write_negative_counterexample :
  holds_int minus_one (-1)
  ∧ sleepy_write alone minus_one 4 dev7 =
    Some {| returned := 0; dev_after := dev7;
            trace := [EvCopy 0; EvLock; EvFlagRead 7; EvUnlock;
                      EvOthers 0; EvFlagRead 7;
                      EvOthers 0; EvFlagRead 7; EvBadTimeout (-250);
                      EvOthers 0; EvFlagRead 7] |}
  ∧ 0 ≠ - EINVAL.
Proof.
  split; [split; [vm_compute; lia | vm_compute; reflexivity]|].
  split; [vm_compute; reflexivity | discriminate].
Qed.

(** C5, at the input where the code falls short of it.  A write of
    INT_MAX seconds that finds the counter moved at its first check should
    return INT_MAX; it returns -1, because with HZ = 250 the product
    [sleep_seconds * HZ] does not fit in an [int] and comes out as -250. *)
Theorem sleepy_write_overflow :
  holds_int int_max INT_MAX
  ∧ int_mul INT_MAX HZ = -250
  ∧ condition (to_ulong (flag dev7)) (others_signal (w_first raced) dev7) = true
  ∧ sleepy_write raced int_max 4 dev7 =
    Some {| returned := -1; dev_after := {| data := None; flag := 8 |};
            trace := [EvCopy 0; EvLock; EvFlagRead 7; EvUnlock;
                      EvOthers 1; EvFlagRead 8] |}.
Proof.
  split; [split; [vm_compute; lia | vm_compute; reflexivity]|].
  repeat split; vm_compute; reflexivity.
Qed.

Lemma vfs_read_only_its_device_witness :
  ∃ dev o devs',
    [dev7; dev7; dev7] !! 1%nat = Some dev
    ∧ vfs_read 0 (mk_file (Some 1%nat)) [dev7; dev7; dev7] = Some (o, devs')
    ∧ returned o = 0
    ∧ devs' !! 1%nat
      = Some {| data := data dev; flag := (flag dev + 1) mod flag_modulus |}
    ∧ (∀ j, j ≠ 1%nat -> devs' !! j = [dev7; dev7; dev7] !! j)
    ∧ length devs' = length [dev7; dev7; dev7].
Proof.
  apply (vfs_read_only_its_device loaded (mk_inode 250 1 (Some 1%nat))
           (mk_file None) (mk_file (Some 1%nat)) 0 [dev7; dev7; dev7]).
  - vm_compute; reflexivity.
  - vm_compute; lia.
Defined.

(** C8 as stated fails: a read of device 1 that is killed while it waits
    for the mutex returns -EINTR and increments no counter, that of
    device 1 included. *)
Lemma vfs_read_only_its_device_counterexample :
  sleepy_open loaded (mk_inode 250 1 (Some 1%nat)) (mk_file None)
  = (0, mk_file (Some 1%nat))
  ∧ vfs_read (- EINTR) (mk_file (Some 1%nat)) [dev7; dev7; dev7]
    = Some ({| returned := - EINTR; dev_after := dev7; trace := [] |},
            [dev7; dev7; dev7])
  ∧ flag dev7 ≠ flag dev7 + 1.
Proof. repeat split; vm_compute; (reflexivity || discriminate). Qed.

Lemma sleepy_init_module_rollback_witness :
  ∃ st',
    sleepy_init_module second_fails (fresh 2) = (- ENOMEM, st')
    ∧ destroyed st' = [0%nat]
    ∧ released st'
    ∧ sleepy_devices st' = Freed.
Proof.
  apply (sleepy_init_module_rollback second_fails 2 1).
  - reflexivity.
  - discriminate.
  - reflexivity.
  - reflexivity.
  - vm_compute; lia.
  - intros m Hm. assert (m = 0%nat) as -> by lia. reflexivity.
  - discriminate.
Defined.

End Examples.

(** * More of the code *)

(** ** The counter as the sleepers see it *)
Section CounterFacts.

Context {cfg : config}.

Lemma others_signal_ok (k : nat) (dev : sleepy_dev) :
  dev_ok dev -> dev_ok (others_signal k dev).
Proof.
  intros Hok. destruct k as [|k]; [exact Hok|].
  unfold others_signal. cbn [Nat.iter]. apply flag_incr_ok.
Qed.

Lemma others_signal_flag (k : nat) (dev : sleepy_dev) :
  dev_ok dev ->
  flag (others_signal k dev) = (flag dev + Z.of_nat k) mod flag_modulus.
Proof.
  intros Hok. induction k as [|k IH].
  - cbn. rewrite Z.add_0_r, Z.mod_small; [reflexivity | exact Hok].
  - change (others_signal (S k) dev) with (flag_incr (others_signal k dev)).
    unfold flag_incr. cbn [flag set_flag].
    rewrite IH, Zplus_mod_idemp_l. f_equal. lia.
Qed.

Lemma flag_modulus_le_ulong : (flag_bits <= 64)%N -> flag_modulus <= 2 ^ 64.
Proof.
  intros Hbits. unfold flag_modulus. apply Z.pow_le_mono_r; lia.
Qed.

(** X1.  The reads of other threads go unnoticed by a sleeper exactly when
    their number is a multiple of 2^flag_bits: one read is always seen (for
    a counter of at least one bit), and wrap-around is the only way to miss
    some. *)
Theorem condition_missed_iff (k : nat) (dev : sleepy_dev) :
  (flag_bits <= 64)%N -> dev_ok dev ->
  condition (to_ulong (flag dev)) (others_signal k dev) = false
  <-> Z.of_nat k mod flag_modulus = 0.
Proof.
  intros Hbits Hok.
  pose proof (flag_modulus_le_ulong Hbits) as HM.
  pose proof flag_modulus_pos as Hpos.
  pose proof (others_signal_ok k dev Hok) as Hok'.
  unfold condition, to_ulong, wrap_unsigned.
  unfold dev_ok in Hok, Hok'.
  rewrite !Z.mod_small by lia.
  rewrite others_signal_flag by exact Hok.
  rewrite negb_false_iff, Z.eqb_eq. split.
  - intros Heq.
    replace (Z.of_nat k) with ((flag dev + Z.of_nat k) - flag dev) by lia.
    rewrite Zminus_mod, <- Heq, (Z.mod_small (flag dev)) by lia.
    rewrite Z.sub_diag. apply Z.mod_0_l. lia.
  - intros Hk. rewrite Zplus_mod, Hk, Z.add_0_r, Z.mod_mod by lia.
    symmetry. apply Z.mod_small. lia.
Qed.

End CounterFacts.

(** ** More on writing the device *)
Section MoreWriteFacts.

Context {cfg : config}.

(** X3.  The three ways in which a write ends before it waits.  When the
    count is not 4, or fewer than 4 bytes can be read from the buffer, the
    write returns -EINVAL; when these are in order but the wait for the
    mutex is killed, it returns -EINTR.  In all three the device is left as
    it was and nothing has happened but, at most, the copy: the mutex was
    not taken, the counter not read, the caller not put to sleep. *)
Theorem sleepy_write_refused (env : write_env) (buf : list byte)
    (count : Z) (dev : sleepy_dev) :
  count ≠ 4 ∨ (length buf < 4)%nat ∨ w_lock env ≠ 0 ->
  ∃ tr,
    sleepy_write env buf count dev =
    Some {| returned := if (count =? 4) && (4 <=? Z.of_nat (length buf))
                        then - EINTR else - EINVAL;
            dev_after := dev; trace := tr |}
    ∧ (tr = [] ∨ ∃ missing, tr = [EvCopy missing]).
Proof.
  intros Hwhy. unfold sleepy_write.
  destruct (Z.eqb_spec count 4) as [->|Hcount]; cbn [negb andb].
  2: { eexists. split; [reflexivity | left; reflexivity]. }
  unfold copy_from_user. change (Z.to_nat 4) with 4%nat.
  rewrite length_take.
  destruct (Z.leb_spec 4 (Z.of_nat (length buf))) as [Hlen|Hlen].
  - rewrite Nat.min_l by lia. change (negb (4 - Z.of_nat 4 =? 0)) with false.
    cbv iota.
    destruct (Z.eqb_spec (w_lock env) 0) as [Hlock|_]; cbn [negb].
    + exfalso. destruct Hwhy as [?|[?|?]]; [congruence | lia | congruence].
    + eexists. split; [reflexivity | right; eexists; reflexivity].
  - rewrite Nat.min_r by lia.
    destruct (Z.eqb_spec (4 - Z.of_nat (length buf)) 0) as [?|_]; [lia|].
    cbn [negb]. eexists. split; [reflexivity | right; eexists; reflexivity].
Qed.

(** X4.  A write of 0 seconds that has the mutex returns 0 after one look at
    the counter, without sleeping, whether the counter has moved or not:
    the 1 jiffy the kernel reports for a moved counter is less than a
    second. *)
Theorem sleepy_write_zero_seconds (env : write_env) (buf : list byte)
    (dev : sleepy_dev) :
  1 < HZ -> holds_int buf 0 -> w_lock env = 0 ->
  ∃ o, sleepy_write env buf 4 dev = Some o
       ∧ returned o = 0
       ∧ no_sleep (trace o) = true
       ∧ dev_after o = others_signal (w_first env) dev.
Proof.
  intros HHZ Hbuf Hlock.
  rewrite (sleepy_write_waits env buf 0 dev Hbuf Hlock).
  unfold wait_event_interruptible_timeout, ___wait_cond_timeout.
  change (to_long (to_ulong (int_mul 0 HZ))) with 0.
  change (0 =? 0) with true.
  destruct (condition _ _); cbn [andb orb];
    (eexists; split; [reflexivity|]);
    unfold finish; cbn [returned trace dev_after].
  - change (negb (1 =? 0)) with true. cbv iota.
    repeat split. apply Z.quot_small. lia.
  - repeat split.
Qed.

Lemma ___wait_event_interrupted (observed : Z) (wakeups : list wakeup) :
  ∀ (__ret : Z) (dev : sleepy_dev) (o : outcome),
    ___wait_event observed wakeups __ret dev = Some o ->
    interrupted (trace o) = true -> returned o = - ERESTARTSYS.
Proof.
  induction wakeups as [|w wakeups IH]; intros __ret dev o; [discriminate|].
  cbn [___wait_event].
  destruct (___wait_cond_timeout _ __ret) as [stop ret1].
  destruct stop; [intros [= <-]; cbn; discriminate|].
  destruct (wk_pending w); cbn [prepare_to_wait_event].
  { change (negb (- ERESTARTSYS =? 0)) with true. cbv iota.
    intros [= <-]. reflexivity. }
  change (negb (0 =? 0)) with false. cbv iota.
  unfold schedule_timeout.
  destruct (ret1 <? 0);
    (destruct (___wait_event observed wakeups _ _) as [o'|] eqn:Hrec;
       [|discriminate]);
    intros [= <-]; push_trace o'; apply (IH _ _ _ Hrec).
Qed.

(** X5.  When the wait of a write is given up for a pending signal, the
    write returns -ERESTARTSYS divided by HZ: a negative number when HZ
    is at most 512, and 0, the value of a time-out, when HZ is larger. *)
Theorem sleepy_write_interrupted (env : write_env) (buf : list byte)
    (s : Z) (dev : sleepy_dev) (o : outcome) :
  0 < HZ -> holds_int buf s -> w_lock env = 0 ->
  sleepy_write env buf 4 dev = Some o ->
  interrupted (trace o) = true ->
  returned o = c_div (- ERESTARTSYS) HZ
  ∧ (HZ <= ERESTARTSYS -> returned o < 0)
  ∧ (ERESTARTSYS < HZ -> returned o = 0).
Proof.
  intros HHZ Hbuf Hlock.
  rewrite (sleepy_write_waits env buf s dev Hbuf Hlock).
  unfold wait_event_interruptible_timeout.
  destruct (___wait_cond_timeout _ _) as [stop ret1].
  destruct stop; [intros [= <-]; cbn; discriminate|].
  destruct (___wait_event _ _ _ _) as [o'|] eqn:Hwait; [|discriminate].
  intros [= <-]. unfold finish. push_trace o'. intros Hint.
  rewrite (___wait_event_interrupted _ _ _ _ _ Hwait Hint).
  change (negb (- ERESTARTSYS =? 0)) with true. cbv iota.
  split; [reflexivity|]. unfold c_div, ERESTARTSYS. split; intros Hcmp.
  - rewrite Z.quot_opp_l by lia.
    assert (1 <= 512 ÷ HZ); [|lia].
    apply Z.quot_le_lower_bound; unfold ERESTARTSYS in Hcmp; lia.
  - rewrite Z.quot_opp_l by lia.
    rewrite Z.quot_small by (unfold ERESTARTSYS in Hcmp; lia). reflexivity.
Qed.

Lemma ___wait_event_calm (observed : Z) (wakeups : list wakeup) :
  ∀ (__ret : Z) (dev : sleepy_dev) (o : outcome),
    calm wakeups = true ->
    ___wait_event observed wakeups __ret dev = Some o ->
    interrupted (trace o) = false ∧ others_seen (trace o) = 0%nat.
Proof.
  induction wakeups as [|w wakeups IH]; intros __ret dev o Hcalm;
    [discriminate|].
  cbn [calm forallb] in Hcalm. fold (calm wakeups) in Hcalm.
  apply andb_true_iff in Hcalm as [Hw Hcalm].
  apply andb_true_iff in Hw as [Hpend Hothers].
  apply negb_true_iff in Hpend. apply Nat.eqb_eq in Hothers.
  cbn [___wait_event]. rewrite Hpend, Hothers.
  destruct (___wait_cond_timeout _ __ret) as [stop ret1].
  destruct stop; [intros [= <-]; cbn; auto|].
  cbn [prepare_to_wait_event].
  change (negb (0 =? 0)) with false. cbv iota.
  unfold schedule_timeout.
  destruct (ret1 <? 0);
    (destruct (___wait_event observed wakeups _ _) as [o'|] eqn:Hrec;
       [|discriminate]);
    intros [= <-]; destruct (IH _ _ _ Hcalm Hrec) as [Hi Ho];
    push_trace o'; cbn [others_seen Nat.add]; rewrite Ho; auto.
Qed.

(** X6.  A write of [s] seconds, [0 <= s] and [s * HZ] within [int], during
    which no signal is pending and no other thread reads the device comes
    back once its time is covered, returns 0, has slept [s * HZ] jiffies at
    least and leaves the device as it found it. *)
Theorem sleepy_write_times_out (env : write_env) (buf : list byte) (s : Z)
    (dev : sleepy_dev) :
  0 < HZ -> holds_int buf s -> 0 <= s -> s * HZ <= INT_MAX ->
  w_lock env = 0 -> w_first env = 0%nat ->
  calm (w_wakeups env) = true ->
  covers (w_wakeups env) (s * HZ) = true ->
  ∃ o, sleepy_write env buf 4 dev = Some o
       ∧ returned o = 0
       ∧ s * HZ <= slept (trace o)
       ∧ dev_after o = dev.
Proof.
  intros HHZ Hbuf Hs Hmax Hlock Hfirst Hcalm Hcov.
  assert (Hrange : INT_MIN <= s * HZ <= INT_MAX)
    by (unfold INT_MIN, INT_MAX in *; nia).
  pose proof (jiffies_of_seconds s Hrange) as Hjif.
  assert (Hsame : condition (to_ulong (flag dev)) dev = false)
    by (unfold condition; rewrite Z.eqb_refl; reflexivity).
  rewrite (sleepy_write_waits env buf s dev Hbuf Hlock).
  unfold wait_event_interruptible_timeout, ___wait_cond_timeout.
  rewrite Hjif, Hfirst. change (others_signal 0 dev) with dev.
  rewrite Hsame. cbn [andb orb].
  destruct (Z.eqb_spec (s * HZ) 0) as [Hz|Hnz].
  { eexists. split; [reflexivity|]. unfold finish; cbn. rewrite Hz.
    repeat split; lia. }
  destruct (___wait_event_returns (to_ulong (flag dev)) (w_wakeups env)
              (s * HZ) dev) as [o' Hwait]; [nia | exact Hcov |].
  rewrite Hwait. eexists. split; [reflexivity|].
  destruct (___wait_event_calm _ _ _ _ _ Hcalm Hwait) as [Hi Ho].
  destruct (___wait_event_frame _ _ _ _ _ Hwait) as [Hdev _].
  rewrite Ho in Hdev. change (others_signal 0 dev) with dev in Hdev.
  assert (Hnn : 0 <= s * HZ) by nia.
  destruct (___wait_event_budget _ _ _ _ _ Hnn Hwait)
    as [[Hi' _] | [(_ & Hc & _) | (_ & _ & Hr & Hle)]].
  - congruence.
  - rewrite Hdev in Hc. congruence.
  - unfold finish. push_trace o'. rewrite Hr. cbn.
    repeat split; [lia | exact Hdev].
Qed.

(** X7.  A sleeper woken in its first sleep.  A write of [s] seconds,
    [0 < s] and [s * HZ] within [int], that finds the counter unmoved,
    sleeps, and is woken [e] jiffies later, in time, by a read that moves
    the counter, returns the whole seconds that are left of [s * HZ - e]
    jiffies. *)
Theorem sleepy_write_woken (env : write_env) (buf : list byte) (s : Z)
    (dev : sleepy_dev) (w1 w2 : wakeup) (ws : list wakeup) :
  0 < HZ -> holds_int buf s -> 0 < s -> s * HZ <= INT_MAX ->
  w_lock env = 0 ->
  w_wakeups env = w1 :: w2 :: ws ->
  wk_pending w1 = false ->
  Z.of_N (wk_elapsed w1) < s * HZ ->
  let observed := to_ulong (flag dev) in
  let dev1 := others_signal (w_first env) dev in
  let dev2 := others_signal (wk_others w1) dev1 in
  let dev3 := others_signal (wk_others w2) dev2 in
  condition observed dev1 = false ->
  condition observed dev2 = false ->
  condition observed dev3 = true ->
  ∃ o, sleepy_write env buf 4 dev = Some o
       ∧ returned o = c_div (s * HZ - Z.of_N (wk_elapsed w1)) HZ
       ∧ slept (trace o) = Z.of_N (wk_elapsed w1)
       ∧ dev_after o = dev3.
Proof.
  intros HHZ Hbuf Hs Hmax Hlock Hwk Hpend He observed dev1 dev2 dev3
    Hc1 Hc2 Hc3.
  assert (Hrange : INT_MIN <= s * HZ <= INT_MAX)
    by (unfold INT_MIN, INT_MAX in *; nia).
  assert (Hnz : (s * HZ =? 0) = false) by (apply Z.eqb_neq; nia).
  assert (Hge : (s * HZ <? 0) = false) by (apply Z.ltb_ge; nia).
  set (left := s * HZ - Z.of_N (wk_elapsed w1)) in *.
  assert (Hleft : (left <? 0) = false) by (apply Z.ltb_ge; lia).
  assert (Hleft0 : (left =? 0) = false) by (apply Z.eqb_neq; lia).
  rewrite (sleepy_write_waits env buf s dev Hbuf Hlock), Hwk.
  unfold wait_event_interruptible_timeout, ___wait_cond_timeout.
  rewrite (jiffies_of_seconds s Hrange).
  fold observed. fold dev1. rewrite Hc1. cbn [andb orb]. rewrite ?Hnz.
  cbn [___wait_event]. unfold ___wait_cond_timeout.
  fold dev2. rewrite Hc2, Hpend. cbn [andb orb prepare_to_wait_event].
  rewrite ?Hnz.
  change (negb (0 =? 0)) with false. cbv iota.
  unfold schedule_timeout. rewrite Hge. fold left. rewrite Hleft.
  fold dev3. rewrite Hc3. cbn [andb orb]. rewrite ?Hleft0.
  eexists. split; [reflexivity|].
  unfold finish;
    cbn [returned trace dev_after before fmap option_fmap option_map].
  rewrite Hleft0. cbn [negb].
  repeat split. cbn. lia.
Qed.

End MoreWriteFacts.

(** ** More on opening files *)
Section MoreFileFacts.

Context {cfg : config}.

(** X8.  Opening succeeds exactly for an inode of the module's major number
    whose minor number is below the number of devices and which is bound
    to the cdev of that device; every other open returns -ENODEV.  After a
    successful open the file points to the device of that minor number. *)
Theorem sleepy_open_succeeds_iff (st : module_state) (ino : inode)
    (filp : file) :
  ((sleepy_open st ino filp).1 = 0
   <-> i_major ino = sleepy_major st
       ∧ 0 <= i_minor ino < to_uint (sleepy_ndevices st)
       ∧ i_cdev ino = Some (Z.to_nat (i_minor ino)))
  ∧ ((sleepy_open st ino filp).1 = 0
     ∨ (sleepy_open st ino filp).1 = - ENODEV)
  ∧ ((sleepy_open st ino filp).1 = 0 ->
     private_data (sleepy_open st ino filp).2 = Some (Z.to_nat (i_minor ino))).
Proof.
  assert (Hno : ∀ P Q : Prop, ¬ P ->
            (- ENODEV = 0 <-> P) ∧ (- ENODEV = 0 ∨ - ENODEV = - ENODEV)
            ∧ (- ENODEV = 0 -> Q)).
  { intros P Q HP. split; [split; [discriminate | intros; contradiction]|].
    split; [right; reflexivity | discriminate]. }
  unfold sleepy_open.
  destruct (Z.eqb_spec (i_major ino) (sleepy_major st)) as [Hmj|Hmj];
    cbn [negb orb]; [|apply Hno; tauto].
  destruct (Z.ltb_spec (i_minor ino) 0) as [Hlo|Hlo]; cbn [orb];
    [apply Hno; lia|].
  destruct (Z.leb_spec (to_uint (sleepy_ndevices st)) (i_minor ino))
    as [Hhi|Hhi]; [apply Hno; lia|].
  destruct (bool_decide (i_cdev ino = Some (Z.to_nat (i_minor ino))))
    eqn:Hcdev; cbn [negb fst snd].
  - apply bool_decide_eq_true_1 in Hcdev.
    split; [split; [intros _; repeat split; [exact Hmj | lia | lia | exact Hcdev]
                   | reflexivity]|].
    split; [left; reflexivity | reflexivity].
  - apply bool_decide_eq_false_1 in Hcdev. apply Hno. tauto.
Qed.

End MoreFileFacts.

(** ** More on loading and unloading the module *)
Section MoreInitFacts.

Context {cfg : config}.

Lemma sleepy_construct_device_array (env : init_env) (minor : nat)
    (st : module_state) :
  sleepy_devices (sleepy_construct_device env minor st).2 =
  match sleepy_devices st with
  | Valid devs => Valid (<[minor := {| data := None; flag := 0 |}]> devs)
  | p => p
  end.
Proof.
  unfold sleepy_construct_device.
  destruct (negb (cdev_add env minor =? 0)); [reflexivity|].
  destruct (IS_ERR (device_create env minor)); reflexivity.
Qed.

(** What the loop of [sleepy_init_module] leaves, however it ends. *)
Lemma construct_devices_spec (env : init_env) :
  ∀ (n i : nat) (st : module_state) (err : Z) (j : nat) (st' : module_state),
    construct_devices env n i st = (err, j, st') ->
    same_but_devices st st'
    ∧ (i <= j)%nat
    ∧ cdevs st' ⊆ cdevs st ∪ set_seq i (j - i)
    ∧ nodes st' ⊆ nodes st ∪ set_seq i (j - i)
    ∧ (err = 0 ->
       cdevs st' = cdevs st ∪ set_seq i n ∧ nodes st' = nodes st ∪ set_seq i n)
    ∧ (∀ len, sleepy_devices st
              = Valid (replicate len {| data := None; flag := 0 |}) ->
              sleepy_devices st'
              = Valid (replicate len {| data := None; flag := 0 |})).
Proof.
  induction n as [|n IH]; intros i st err j st'.
  - cbn [construct_devices]. intros [= <- <- <-].
    split; [apply same_but_devices_refl|]. split; [lia|].
    rewrite Nat.sub_diag. cbn [set_seq].
    split; [set_solver|]. split; [set_solver|].
    split; [intros _; split; set_solver | auto].
  - cbn [construct_devices].
    pose proof (sleepy_construct_device_array env i st) as Harr.
    destruct (sleepy_construct_device_spec env i st)
      as (st1 & Heq & Hsame & Hok & Hfail).
    rewrite Heq in Harr |- *. cbn [snd] in Harr.
    assert (Hkeep : ∀ len, sleepy_devices st
                = Valid (replicate len {| data := None; flag := 0 |}) ->
                sleepy_devices st1
                = Valid (replicate len {| data := None; flag := 0 |})).
    { intros len Hlen. rewrite Harr, Hlen, insert_replicate. reflexivity. }
    destruct (Z.eqb_spec (construct_error env i) 0) as [Hz|Hnz]; cbn [negb].
    + intros Hrun. apply IH in Hrun
        as (Hsame' & Hle & Hc & Hn & Hdone & Hkeep').
      destruct (Hok Hz) as [Hc1 Hn1].
      split; [eapply same_but_devices_trans; eassumption|].
      split; [lia|].
      replace (j - i)%nat with (S (j - S i)) by lia.
      rewrite set_seq_S_start. rewrite Hc1 in Hc. rewrite Hn1 in Hn.
      split; [set_solver|]. split; [set_solver|].
      split; [|auto].
      intros Herr. destruct (Hdone Herr) as [Hc2 Hn2].
      rewrite Hc2, Hn2, Hc1, Hn1. cbn [set_seq]. split; set_solver.
    + intros [= <- <- <-]. destruct (Hfail Hnz) as [Hc Hn].
      split; [exact Hsame|]. split; [lia|].
      rewrite Nat.sub_diag, Hn. cbn [set_seq].
      split; [set_solver|]. split; [set_solver|].
      split; [intros ?; contradiction | auto].
Qed.

Lemma construct_devices_all_ok (env : init_env) :
  ∀ (n i : nat) (st : module_state),
    (∀ m, (i <= m < i + n)%nat -> construct_error env m = 0) ->
    ∃ st', construct_devices env n i st = (0, (i + n)%nat, st').
Proof.
  induction n as [|n IH]; intros i st Hall.
  - cbn. rewrite Nat.add_0_r. eexists; reflexivity.
  - cbn [construct_devices].
    destruct (sleepy_construct_device_spec env i st) as (st1 & -> & _).
    rewrite (Hall i) by lia. change (negb (0 =? 0)) with false. cbv iota.
    destruct (IH (S i) st1) as [st' Hrun]; [intros m Hm; apply Hall; lia|].
    rewrite Hrun. replace (S i + n)%nat with (i + S n)%nat by lia.
    eexists; reflexivity.
Qed.

(** The state of the module after a load in which every kernel call
    succeeds. *)
Lemma sleepy_init_module_succeeds (env : init_env) (ndevices : Z) :
  0 < ndevices ->
  0 <= (alloc_chrdev_region env).1 ->
  class_create env = Valid () ->
  kzalloc env = true ->
  (∀ m, (m < Z.to_nat ndevices)%nat -> construct_error env m = 0) ->
  ∃ st',
    sleepy_init_module env (fresh ndevices) = (0, st')
    ∧ sleepy_ndevices st' = ndevices
    ∧ sleepy_major st' = (alloc_chrdev_region env).2
    ∧ sleepy_devices st'
      = Valid (replicate (Z.to_nat ndevices) {| data := None; flag := 0 |})
    ∧ sleepy_class st' = Valid ()
    ∧ chrdev_region st' = true ∧ class_live st' = true ∧ array_live st' = true
    ∧ cdevs st' = set_seq 0 (Z.to_nat ndevices)
    ∧ nodes st' = set_seq 0 (Z.to_nat ndevices)
    ∧ destroyed st' = [].
Proof.
  intros Hn Halloc Hclass Hkz Hall.
  unfold sleepy_init_module. cbn [fresh sleepy_ndevices].
  destruct (Z.leb_spec ndevices 0) as [?|_]; [lia|].
  destruct (alloc_chrdev_region env) as [err major]. cbn [fst snd] in *.
  destruct (Z.ltb_spec err 0) as [?|_]; [lia|].
  cbn [sleepy_class sleepy_ndevices sleepy_devices]. rewrite Hclass, Hkz.
  cbn [IS_ERR negb is_null].
  match goal with
  | |- context [construct_devices env ?n 0%nat ?st] =>
      destruct (construct_devices_all_ok env n 0%nat st) as [st1 Hrun];
      [intros m Hm; apply Hall; lia|];
      pose proof (construct_devices_spec env _ _ _ _ _ _ Hrun)
        as (Hsame & _ & _ & _ & Hdone & Hkeep)
  end.
  rewrite Hrun. change (negb (0 =? 0)) with false. cbv iota.
  destruct Hsame as (H1 & H2 & H3 & H4 & H5 & H6 & H7 & _).
  destruct (Hdone eq_refl) as [Hc Hnd].
  cbn [sleepy_ndevices sleepy_major sleepy_class chrdev_region class_live
       array_live destroyed cdevs nodes sleepy_devices] in *.
  exists st1. split; [reflexivity|].
  rewrite H1, H2, H3, H4, H5, H6, H7, Hc, Hnd.
  rewrite (Hkeep (Z.to_nat ndevices) eq_refl).
  repeat split; set_solver.
Qed.

(** X10.  A load in which every kernel call succeeds returns 0 and leaves
    the module complete: an array of [sleepy_ndevices] devices, each with
    counter 0 and no data, a cdev and a device node for every minor number
    from 0, the class, the range of minor numbers; nothing was destroyed. *)
Theorem sleepy_init_module_loads (env : init_env) (ndevices : Z) :
  0 < ndevices ->
  0 <= (alloc_chrdev_region env).1 ->
  class_create env = Valid () ->
  kzalloc env = true ->
  (∀ m, (m < Z.to_nat ndevices)%nat -> construct_error env m = 0) ->
  ∃ st',
    sleepy_init_module env (fresh ndevices) = (0, st')
    ∧ sleepy_ndevices st' = ndevices
    ∧ sleepy_major st' = (alloc_chrdev_region env).2
    ∧ sleepy_devices st'
      = Valid (replicate (Z.to_nat ndevices) {| data := None; flag := 0 |})
    ∧ sleepy_class st' = Valid ()
    ∧ chrdev_region st' = true ∧ class_live st' = true ∧ array_live st' = true
    ∧ cdevs st' = set_seq 0 (Z.to_nat ndevices)
    ∧ nodes st' = set_seq 0 (Z.to_nat ndevices)
    ∧ destroyed st' = [].
Proof. exact (sleepy_init_module_succeeds env ndevices). Qed.

(** X11.  Load, then unload.  [sleepy_exit_module] after a successful load
    destroys every device, from 0 to [sleepy_ndevices - 1] in this order,
    and gives back everything the load had taken. *)
Theorem sleepy_exit_module_unloads (env : init_env) (ndevices : Z) :
  0 < ndevices ->
  0 <= (alloc_chrdev_region env).1 ->
  class_create env = Valid () ->
  kzalloc env = true ->
  (∀ m, (m < Z.to_nat ndevices)%nat -> construct_error env m = 0) ->
  ∃ st',
    sleepy_init_module env (fresh ndevices) = (0, st')
    ∧ released (sleepy_exit_module st')
    ∧ destroyed (sleepy_exit_module st') = seq 0 (Z.to_nat ndevices)
    ∧ sleepy_devices (sleepy_exit_module st') = Freed.
Proof.
  intros Hn Halloc Hclass Hkz Hall.
  destruct (sleepy_init_module_succeeds env ndevices Hn Halloc Hclass Hkz Hall)
    as (st' & Hinit & Hnd & _ & Hdevs & Hcl & _ & _ & _ & Hc & Hno & Hdes).
  exists st'. split; [exact Hinit|].
  unfold sleepy_exit_module. rewrite Hnd.
  replace (sleepy_cleanup_module ndevices st')
    with (sleepy_cleanup_module (Z.of_nat (Z.to_nat ndevices)) st')
    by (rewrite Z2Nat.id; [reflexivity | lia]).
  destruct (sleepy_cleanup_module_spec (Z.to_nat ndevices) st')
    as (Hd & Hcd & Hnod & Hreg & Hlive & Harr & Hfreed);
    [rewrite Hdevs; reflexivity | exact Hcl |].
  split; [|split; [rewrite Hd, Hdes; reflexivity | exact Hfreed]].
  unfold released. rewrite Hreg, Hlive, Harr, Hcd, Hnod, Hc, Hno.
  repeat split; set_solver.
Qed.

(** X12.  Load, open, read.  After a successful load of [ndevices]
    devices, opening the inode of any minor number [i] below [ndevices]
    succeeds, and a first read through that file returns 0 and leaves
    device [i] with counter 1. *)
Theorem sleepy_open_after_load (env : init_env) (ndevices i : Z)
    (filp : file) :
  0 < ndevices <= INT_MAX ->
  0 <= (alloc_chrdev_region env).1 ->
  class_create env = Valid () ->
  kzalloc env = true ->
  (∀ m, (m < Z.to_nat ndevices)%nat -> construct_error env m = 0) ->
  0 <= i < ndevices ->
  let ino := {| i_major := (alloc_chrdev_region env).2; i_minor := i;
                i_cdev := Some (Z.to_nat i) |} in
  let opened := {| private_data := Some (Z.to_nat i) |} in
  ∃ st' devs devs',
    sleepy_init_module env (fresh ndevices) = (0, st')
    ∧ sleepy_devices st' = Valid devs
    ∧ sleepy_open st' ino filp = (0, opened)
    ∧ vfs_read 0 opened devs
      = Some (sleepy_read 0 {| data := None; flag := 0 |}, devs')
    ∧ returned (sleepy_read 0 {| data := None; flag := 0 |}) = 0
    ∧ devs' !! Z.to_nat i
      = Some {| data := None; flag := 1 mod flag_modulus |}.
Proof.
  intros Hn Halloc Hclass Hkz Hall Hi ino opened.
  destruct (sleepy_init_module_succeeds env ndevices
              ltac:(lia) Halloc Hclass Hkz Hall)
    as (st' & Hinit & Hnd & Hmaj & Hdevs & _).
  set (zero := {| data := None; flag := 0 |}) in *.
  exists st', (replicate (Z.to_nat ndevices) zero),
    (<[Z.to_nat i := dev_after (sleepy_read 0 zero)]>
       (replicate (Z.to_nat ndevices) zero)).
  split; [exact Hinit|]. split; [exact Hdevs|].
  assert (Hlt : (Z.to_nat i < Z.to_nat ndevices)%nat) by lia.
  split; [|split; [|split; [reflexivity|]]].
  - unfold sleepy_open, ino. cbn [i_major i_minor i_cdev].
    rewrite Hmaj, Hnd, Z.eqb_refl. cbn [negb orb].
    assert (Huint : to_uint ndevices = ndevices).
    { unfold to_uint, wrap_unsigned. apply Z.mod_small.
      unfold INT_MAX in Hn. change (2 ^ 31) with 2147483648 in Hn.
      change (2 ^ 32) with 4294967296. lia. }
    rewrite Huint.
    destruct (Z.ltb_spec i 0) as [?|_]; [lia|].
    destruct (Z.leb_spec ndevices i) as [?|_]; [lia|]. cbn [orb].
    rewrite bool_decide_eq_true_2 by reflexivity. reflexivity.
  - unfold vfs_read, through, opened. cbn [private_data].
    rewrite lookup_replicate_2 by exact Hlt. reflexivity.
  - rewrite list_lookup_insert_eq by (rewrite length_replicate; exact Hlt).
    reflexivity.
Qed.

(** What [sleepy_cleanup_module] leaves when the cdevs and nodes in place
    are among the devices it is told to destroy. *)
Lemma sleepy_cleanup_module_releases (k : nat) (st : module_state) :
  is_null (sleepy_class st) = false ->
  (IS_ERR (sleepy_class st) = true -> class_live st = false) ->
  (is_null (sleepy_devices st) = true ->
   array_live st = false ∧ cdevs st = ∅ ∧ nodes st = ∅) ->
  cdevs st ⊆ set_seq 0 k -> nodes st ⊆ set_seq 0 k ->
  released (sleepy_cleanup_module (Z.of_nat k) st).
Proof.
  intros Hclass Herr Hnull Hc Hn.
  unfold sleepy_cleanup_module, destroy_devices, released.
  rewrite Nat2Z.id.
  destruct (destroy_list_spec (seq 0 k) st)
    as (H1&H2&H3&H4&H5&H6&H7&H8&H9&H10).
  rewrite list_to_set_seq in H8, H9.
  destruct (is_null (sleepy_devices st)) eqn:Hdevs; cbn [negb].
  - destruct (Hnull eq_refl) as (Harr & Hc0 & Hn0).
    rewrite Hclass. cbn [negb].
    cbn [sleepy_class chrdev_region class_live array_live cdevs nodes].
    rewrite Harr, Hc0, Hn0.
    destruct (IS_ERR (sleepy_class st)) eqn:HE; [rewrite Herr|]; auto.
  - cbn [sleepy_class chrdev_region class_live array_live cdevs nodes].
    rewrite H4, Hclass. cbn [negb].
    cbn [sleepy_class chrdev_region class_live array_live cdevs nodes].
    rewrite ?H4, ?H6, H8, H9.
    destruct (IS_ERR (sleepy_class st)) eqn:HE; [rewrite Herr by reflexivity|];
      repeat split; set_solver.
Qed.

(** X13.  A load that fails leaves nothing behind.  Whatever the kernel
    answers, when [sleepy_init_module] returns an error (a value other
    than 0) the module holds no cdev, no device node, no array, no class
    and no range of minor numbers. *)
Theorem sleepy_init_module_fails_clean (env : init_env) (ndevices : Z)
    (err : Z) (st' : module_state) :
  is_null (class_create env) = false ->
  sleepy_init_module env (fresh ndevices) = (err, st') ->
  err ≠ 0 ->
  released st'.
Proof.
  intros Hclass. unfold sleepy_init_module. cbn [fresh sleepy_ndevices].
  destruct (Z.leb_spec ndevices 0) as [_|_].
  { intros [= <- <-] _. unfold released. cbn. auto. }
  destruct (alloc_chrdev_region env) as [e major].
  destruct (Z.ltb_spec e 0) as [_|_].
  { intros [= <- <-] _. unfold released. cbn. auto. }
  cbn [sleepy_class sleepy_ndevices sleepy_devices].
  destruct (IS_ERR (class_create env)) eqn:HE.
  { intros [= <- <-] _.
    apply (sleepy_cleanup_module_releases 0); cbn; rewrite ?HE; auto. }
  destruct (kzalloc env) eqn:Hkz; cbn [is_null].
  2: { intros [= <- <-] _.
       apply (sleepy_cleanup_module_releases 0); cbn; rewrite ?HE; auto;
         discriminate. }
  match goal with
  | |- context [construct_devices env ?n 0%nat ?st] =>
      destruct (construct_devices env n 0%nat st) as [[e1 j] st1] eqn:Hrun;
      pose proof (construct_devices_spec env _ _ _ _ _ _ Hrun)
        as (Hsame & _ & Hc & Hn & _ & _)
  end.
  destruct (Z.eqb_spec e1 0) as [->|Hnz]; cbn [negb].
  { intros [= <- <-] Hne. contradiction. }
  intros [= <- <-] _.
  destruct Hsame as (_ & _ & Hcl & _ & Hlive & _ & _ & Hnull).
  cbn [sleepy_class sleepy_devices class_live is_null cdevs nodes] in *.
  rewrite Nat.sub_0_r in Hc, Hn.
  apply sleepy_cleanup_module_releases.
  - rewrite Hcl. exact Hclass.
  - rewrite Hcl, HE. discriminate.
  - rewrite Hnull. discriminate.
  - set_solver.
  - set_solver.
Qed.

(** X14.  A load is refused before anything is taken when the number of
    devices is not positive (-EINVAL) or when the range of minor numbers
    cannot be had (the kernel's error): the module is left exactly as it
    was, and [sleepy_cleanup_module] is not run. *)
Theorem sleepy_init_module_refused (env : init_env) (st : module_state) :
  sleepy_ndevices st <= 0 ∨ (alloc_chrdev_region env).1 < 0 ->
  sleepy_init_module env st =
  (if sleepy_ndevices st <=? 0 then - EINVAL else (alloc_chrdev_region env).1,
   st).
Proof.
  intros Hwhy. unfold sleepy_init_module.
  destruct (Z.leb_spec (sleepy_ndevices st) 0) as [_|Hpos]; [reflexivity|].
  destruct (alloc_chrdev_region env) as [e major]. cbn [fst] in *.
  destruct (Z.ltb_spec e 0) as [_|?]; [reflexivity | lia].
Qed.

End MoreInitFacts.

(** ** The further theorems at work *)
Section MoreExamples.

Import Sample MoreSample.
#[local] Existing Instance x86_64.

Lemma condition_missed_iff_witness :
  (flag_bits <= 64)%N ∧ dev_ok dev7
  ∧ (condition (to_ulong (flag dev7)) (others_signal 3 dev7) = false
     <-> Z.of_nat 3 mod flag_modulus = 0).
Proof.
  assert (Hbits : (flag_bits <= 64)%N) by (vm_compute; discriminate).
  assert (Hok : dev_ok dev7)
    by (vm_compute; split; [discriminate | reflexivity]).
  split; [exact Hbits|]. split; [exact Hok|].
  exact (condition_missed_iff 3 dev7 Hbits Hok).
Defined.

Lemma sleepy_write_refused_witness :
  ∃ tr,
    sleepy_write killed one_second 4 dev7 =
    Some {| returned := - EINTR; dev_after := dev7; trace := tr |}
    ∧ (tr = [] ∨ ∃ missing, tr = [EvCopy missing]).
Proof.
  apply (sleepy_write_refused killed one_second 4 dev7).
  right; right. discriminate.
Defined.

Lemma sleepy_write_zero_seconds_witness :
  ∃ o, sleepy_write raced zero_seconds 4 dev7 = Some o
       ∧ returned o = 0
       ∧ no_sleep (trace o) = true
       ∧ dev_after o = others_signal 1 dev7.
Proof.
  apply (sleepy_write_zero_seconds raced zero_seconds dev7).
  - reflexivity.
  - split; [vm_compute; lia | vm_compute; reflexivity].
  - reflexivity.
Defined.

Lemma sleepy_write_interrupted_witness :
  ∃ o, sleepy_write signalled one_second 4 dev7 = Some o
       ∧ returned o = c_div (- ERESTARTSYS) HZ
       ∧ (HZ <= ERESTARTSYS -> returned o < 0)
       ∧ (ERESTARTSYS < HZ -> returned o = 0).
Proof.
  eexists. split; [vm_compute; reflexivity|].
  apply (sleepy_write_interrupted signalled one_second 1 dev7).
  - reflexivity.
  - split; [vm_compute; lia | vm_compute; reflexivity].
  - reflexivity.
  - vm_compute; reflexivity.
  - vm_compute; reflexivity.
Defined.

Lemma sleepy_write_times_out_witness :
  ∃ o, sleepy_write alone one_second 4 dev7 = Some o
       ∧ returned o = 0
       ∧ 1 * HZ <= slept (trace o)
       ∧ dev_after o = dev7.
Proof.
  apply (sleepy_write_times_out alone one_second 1 dev7).
  - reflexivity.
  - split; [vm_compute; lia | vm_compute; reflexivity].
  - discriminate.
  - vm_compute; discriminate.
  - reflexivity.
  - reflexivity.
  - vm_compute; reflexivity.
  - vm_compute; reflexivity.
Defined.

Lemma sleepy_write_woken_witness :
  ∃ o, sleepy_write woken one_second 4 dev7 = Some o
       ∧ returned o = c_div (1 * HZ - 10) HZ
       ∧ slept (trace o) = 10
       ∧ dev_after o = others_signal 1 (others_signal 0 (others_signal 0 dev7)).
Proof.
  apply (sleepy_write_woken woken one_second 1 dev7
           (mk_wakeup false 0 10) (mk_wakeup false 1 240)
           [mk_wakeup false 0 0]).
  - reflexivity.
  - split; [vm_compute; lia | vm_compute; reflexivity].
  - reflexivity.
  - vm_compute; discriminate.
  - reflexivity.
  - reflexivity.
  - reflexivity.
  - vm_compute; reflexivity.
  - vm_compute; reflexivity.
  - vm_compute; reflexivity.
  - vm_compute; reflexivity.
Defined.

Lemma sleepy_init_module_loads_witness :
  ∃ st',
    sleepy_init_module all_fine (fresh 3) = (0, st')
    ∧ sleepy_ndevices st' = 3
    ∧ sleepy_major st' = 250
    ∧ sleepy_devices st'
      = Valid (replicate 3 {| data := None; flag := 0 |})
    ∧ sleepy_class st' = Valid ()
    ∧ chrdev_region st' = true ∧ class_live st' = true ∧ array_live st' = true
    ∧ cdevs st' = set_seq 0 3
    ∧ nodes st' = set_seq 0 3
    ∧ destroyed st' = [].
Proof.
  apply (sleepy_init_module_loads all_fine 3).
  - reflexivity.
  - discriminate.
  - reflexivity.
  - reflexivity.
  - intros m _. reflexivity.
Defined.

Lemma sleepy_exit_module_unloads_witness :
  ∃ st',
    sleepy_init_module all_fine (fresh 3) = (0, st')
    ∧ released (sleepy_exit_module st')
    ∧ destroyed (sleepy_exit_module st') = [0; 1; 2]%nat
    ∧ sleepy_devices (sleepy_exit_module st') = Freed.
Proof.
  apply (sleepy_exit_module_unloads all_fine 3).
  - reflexivity.
  - discriminate.
  - reflexivity.
  - reflexivity.
  - intros m _. reflexivity.
Defined.

Lemma sleepy_open_after_load_witness :
  ∃ st' devs devs',
    sleepy_init_module all_fine (fresh 3) = (0, st')
    ∧ sleepy_devices st' = Valid devs
    ∧ sleepy_open st' (mk_inode 250 1 (Some 1%nat)) (mk_file None)
      = (0, mk_file (Some 1%nat))
    ∧ vfs_read 0 (mk_file (Some 1%nat)) devs
      = Some (sleepy_read 0 {| data := None; flag := 0 |}, devs')
    ∧ returned (sleepy_read 0 {| data := None; flag := 0 |}) = 0
    ∧ devs' !! 1%nat = Some {| data := None; flag := 1 mod flag_modulus |}.
Proof.
  apply (sleepy_open_after_load all_fine 3 1 (mk_file None)).
  - split; [reflexivity | vm_compute; discriminate].
  - discriminate.
  - reflexivity.
  - reflexivity.
  - intros m _. reflexivity.
  - split; [discriminate | reflexivity].
Defined.

Lemma sleepy_init_module_fails_clean_witness :
  released (sleepy_init_module no_class (fresh 3)).2.
Proof.
  apply (sleepy_init_module_fails_clean no_class 3 (- ENOMEM)).
  - reflexivity.
  - vm_compute; reflexivity.
  - discriminate.
Defined.

Lemma sleepy_init_module_refused_witness :
  sleepy_init_module no_region (fresh 3) = (-16, fresh 3)
  ∧ sleepy_init_module all_fine (fresh 0) = (- EINVAL, fresh 0).
Proof.
  split.
  - apply (sleepy_init_module_refused no_region (fresh 3)).
    right. reflexivity.
  - apply (sleepy_init_module_refused all_fine (fresh 0)).
    left. discriminate.
Defined.

End MoreExamples.
